(** * AI-Doctor-Scheduling: the scheduling and booking engine

    A shallow embedding of [backend/services/scheduling.py],
    [backend/services/ml_model.py] and the rows of [backend/models.py]
    they read and write, followed by the properties of slot generation,
    booking, cancellation and no-show scoring.

    Conventions of the embedding.
    - An instant is an integer number of microseconds on the UTC time
      line (the resolution of Python's [datetime]); a [date] is its
      proleptic ordinal, as [date.toordinal] gives it; [timedelta]s are
      microsecond counts.  A [datetime] holds the years 1 to 9999 and a
      [timedelta] at most 999999999 days: the sums the slot finder
      computes from its arguments and from stored rows raise
      [OverflowError] outside these limits.  The clock readings and the
      instants a booking is made for are taken within them.
    - A table is the list of its rows, a query is a [filter] over it and
      [.first()] is the head of the filtered list.
    - A call either returns a value or raises ([outcome]); a loop
      carries fuel and yields [None] when the fuel runs out. *)

From Stdlib Require Import ZArith Uint63 Floats.PrimFloat Lia.
From stdpp Require Import gmap strings list sorting.

Open Scope Z_scope.

(** ** Outcomes of a Python call *)

Inductive exn : Type :=
  | ValueError (msg : string)
  | TypeError (msg : string)
  | IntegrityError (msg : string)
  | OperationalError (msg : string)
  | OverflowError.

(** [str(e)].  An [OverflowError] stands for its class: its text names
    the sum that failed, and nothing here reads it. *)
Definition str (e : exn) : string :=
  match e with
  | ValueError msg | TypeError msg | IntegrityError msg | OperationalError msg => msg
  | OverflowError => "date value out of range"
  end.

Inductive outcome (A : Type) : Type :=
  | Returns (a : A)
  | Raises (e : exn).

Arguments Returns {A} a.
Arguments Raises {A} e.

#[global] Instance outcome_bind : MBind outcome := fun A B k o =>
  match o with
  | Returns a => k a
  | Raises e => Raises e
  end.

(** ** Dates, times of day and instants *)

Module Time.

Definition date : Type := Z.
Definition time : Type := Z.
Definition datetime : Type := Z.
Definition timedelta : Type := Z.

Definition US_PER_SECOND : Z := 1000000.
Definition US_PER_MINUTE : Z := 60 * US_PER_SECOND.
Definition US_PER_HOUR : Z := 60 * US_PER_MINUTE.
Definition US_PER_DAY : Z := 24 * US_PER_HOUR.

Definition minutes (m : Z) : timedelta := m * US_PER_MINUTE.
Definition days (d : Z) : timedelta := d * US_PER_DAY.

(** [date.weekday()]: Monday is 0, and ordinal 1 is a Monday. *)
Definition weekday (d : date) : Z := (d + 6) mod 7.

(** [time.min] and [datetime.combine(d, t).replace(tzinfo=UTC)]. *)
Definition time_min : time := 0.
Definition combine (d : date) (t : time) : datetime := d * US_PER_DAY + t.

(** [time(h, m)] *)
Definition hm (h m : Z) : time := h * US_PER_HOUR + m * US_PER_MINUTE.

(** [dt.date()] and [dt.hour] of a UTC instant. *)
Definition date_of (dt : datetime) : date := dt / US_PER_DAY.
Definition hour (dt : datetime) : Z := (dt mod US_PER_DAY) / US_PER_HOUR.

(** [datetime.min] and [datetime.max]: the first microsecond of
    0001-01-01 (ordinal 1) and the last of 9999-12-31 (ordinal 3652059). *)
Definition MAX_ORDINAL : date := 3652059.
Definition MIN_DATETIME : datetime := combine 1 0.
Definition MAX_DATETIME : datetime := combine MAX_ORDINAL (US_PER_DAY - 1).

(** The largest number of days, either way, a [timedelta] holds. *)
Definition MAX_DELTA_DAYS : Z := 999999999.

(** [timedelta(minutes=m)]: the days are the floor of the quotient. *)
Definition timedelta_minutes (m : Z) : outcome timedelta :=
  if bool_decide (- MAX_DELTA_DAYS <= minutes m / US_PER_DAY <= MAX_DELTA_DAYS)
  then Returns (minutes m)
  else Raises OverflowError.

(** [dt + td] *)
Definition add (dt : datetime) (td : timedelta) : outcome datetime :=
  if bool_decide (MIN_DATETIME <= dt + td <= MAX_DATETIME)
  then Returns (dt + td)
  else Raises OverflowError.

End Time.

(** ** Rows of [backend/models.py] *)

Inductive AppointmentStatus : Type :=
  | SCHEDULED
  | CONFIRMED
  | COMPLETED
  | CANCELLED
  | NO_SHOW.

#[global] Instance AppointmentStatus_eq_dec : EqDecision AppointmentStatus.
Proof. solve_decision. Defined.

(** The member name, which is what the non-native enum column stores. *)
Definition status_name (s : AppointmentStatus) : string :=
  match s with
  | SCHEDULED => "SCHEDULED"
  | CONFIRMED => "CONFIRMED"
  | COMPLETED => "COMPLETED"
  | CANCELLED => "CANCELLED"
  | NO_SHOW => "NO_SHOW"
  end.

Module Hospital.
Record t : Type := mk { id : Z }.
End Hospital.

Module Doctor.
(** [consultation_duration] is a nullable integer column. *)
Record t : Type := mk {
  id : Z;
  hospital_id : option Z;
  consultation_duration : option Z
}.
End Doctor.

Module Patient.
Record t : Type := mk {
  id : Z;
  date_of_birth : option Time.date
}.
End Patient.

Module DoctorAvailability.
Record t : Type := mk {
  id : Z;
  doctor_id : Z;
  day_of_week : Z;
  start_time : Time.time;
  end_time : Time.time;
  is_available : bool
}.
End DoctorAvailability.

Module Appointment.
Record t : Type := mk {
  id : Z;
  patient_id : Z;
  doctor_id : Z;
  hospital_id : Z;
  appointment_datetime : Time.datetime;
  duration_minutes : Z;
  status : AppointmentStatus;
  no_show_probability : float;
  reason : option string;
  updated_at : option Time.datetime;
  cancelled_at : option Time.datetime
}.

(** [appt.status = s] and [appt.updated_at = now] *)
Definition set_status (a : t) (s : AppointmentStatus) : t :=
  {| id := id a;
     patient_id := patient_id a;
     doctor_id := doctor_id a;
     hospital_id := hospital_id a;
     appointment_datetime := appointment_datetime a;
     duration_minutes := duration_minutes a;
     status := s;
     no_show_probability := no_show_probability a;
     reason := reason a;
     updated_at := updated_at a;
     cancelled_at := cancelled_at a |}.

Definition set_updated_at (a : t) (now : Time.datetime) : t :=
  {| id := id a;
     patient_id := patient_id a;
     doctor_id := doctor_id a;
     hospital_id := hospital_id a;
     appointment_datetime := appointment_datetime a;
     duration_minutes := duration_minutes a;
     status := status a;
     no_show_probability := no_show_probability a;
     reason := reason a;
     updated_at := Some now;
     cancelled_at := cancelled_at a |}.
End Appointment.

(** The committed content of the database, as a session reads it. *)
Record Session : Type := mkSession {
  hospitals : list Hospital.t;
  doctors : list Doctor.t;
  patients : list Patient.t;
  doctor_availability : list DoctorAvailability.t;
  appointments : list Appointment.t
}.

(** The session with its appointments table replaced. *)
Definition with_appointments (session : Session) (rows : list Appointment.t) : Session :=
  {| hospitals := hospitals session;
     doctors := doctors session;
     patients := patients session;
     doctor_availability := doctor_availability session;
     appointments := rows |}.

(** [query(...).first()] *)
Definition first {A : Type} (rows : list A) : option A := head rows.

(** ** [backend/services/scheduling.py]: helpers *)

Definition SLOT_INCREMENT_MINUTES : Z := 15.
Definition MAX_BOOKING_DAYS_AHEAD : Z := 90.

(** [str.upper] on ASCII, as SQL's [upper] on the stored member name. *)
Definition upper_ascii (c : Ascii.ascii) : Ascii.ascii :=
  let n := Ascii.nat_of_ascii c in
  if (97 <=? n)%nat && (n <=? 122)%nat then Ascii.ascii_of_nat (n - 32) else c.

Fixpoint upper (s : string) : string :=
  match s with
  | EmptyString => EmptyString
  | String c r => String (upper_ascii c) (upper r)
  end.

Definition _status_names (statuses : list AppointmentStatus) : list string :=
  map (fun s => upper (status_name s)) statuses.

(** ** Slot finder *)

(** [any(current < busy_end and slot_end > busy_start for ... in busy)] *)
Definition conflicts (busy : list (Time.datetime * Time.datetime))
    (current slot_end : Time.datetime) : bool :=
  existsb (fun b => bool_decide (current < b.2) && bool_decide (slot_end > b.1)) busy.

(** The [while] loop over one availability row.  The loop test and
    [slot_end] are the same sum [current + timedelta(minutes=...)];
    [increment] is 15 minutes. *)
Fixpoint slot_walk (fuel : nat) (busy : list (Time.datetime * Time.datetime))
    (consultation_minutes : Z) (end_dt current : Time.datetime) (slots : gset Z)
    : option (outcome (gset Z)) :=
  match fuel with
  | O => None
  | S fuel' =>
      match td ← Time.timedelta_minutes consultation_minutes; Time.add current td with
      | Raises e => Some (Raises e)
      | Returns slot_end =>
          if bool_decide (slot_end <= end_dt) then
            let conflict := conflicts busy current slot_end in
            let slots' := if conflict then slots else {[ current ]} ∪ slots in
            match Time.add current (Time.minutes SLOT_INCREMENT_MINUTES) with
            | Raises e => Some (Raises e)
            | Returns current' =>
                slot_walk fuel' busy consultation_minutes end_dt current' slots'
            end
          else Some (Returns slots)
      end
  end.

(** The [for availability in availability_rows] loop. *)
Fixpoint slot_rows (fuel : nat) (busy : list (Time.datetime * Time.datetime))
    (consultation_minutes : Z) (date : Time.date)
    (availability_rows : list DoctorAvailability.t) (slots : gset Z)
    : option (outcome (gset Z)) :=
  match availability_rows with
  | [] => Some (Returns slots)
  | availability :: rest =>
      let start_dt := Time.combine date (DoctorAvailability.start_time availability) in
      let end_dt := Time.combine date (DoctorAvailability.end_time availability) in
      match slot_walk fuel busy consultation_minutes end_dt start_dt slots with
      | Some (Returns slots') =>
          slot_rows fuel busy consultation_minutes date rest slots'
      | Some (Raises e) => Some (Raises e)
      | None => None
      end
  end.

(** [sorted(slots)] *)
Definition sorted (slots : gset Z) : list Z := merge_sort Z.le (elements slots).

(** The enabled availability rows of a doctor on a weekday. *)
Definition availability_query (session : Session) (doctor_id weekday : Z)
    : list DoctorAvailability.t :=
  filter (fun a => DoctorAvailability.doctor_id a = doctor_id
                   /\ DoctorAvailability.day_of_week a = weekday
                   /\ DoctorAvailability.is_available a = true)
         (doctor_availability session).

(** The active appointments of a doctor that start within a day. *)
Definition existing_query (session : Session) (doctor_id : Z)
    (start_of_day next_day : Time.datetime) : list Appointment.t :=
  let active_status := _status_names [SCHEDULED; CONFIRMED] in
  filter (fun a => Appointment.doctor_id a = doctor_id
                   /\ Appointment.appointment_datetime a >= start_of_day
                   /\ Appointment.appointment_datetime a < next_day
                   /\ upper (status_name (Appointment.status a)) ∈ active_status)
         (appointments session).

(** The [busy] list: start and end of each of them. *)
Fixpoint busy_of (existing : list Appointment.t)
    : outcome (list (Time.datetime * Time.datetime)) :=
  match existing with
  | [] => Returns []
  | appt :: rest =>
      let start := Appointment.appointment_datetime appt in
      td ← Time.timedelta_minutes (Appointment.duration_minutes appt);
      end_ ← Time.add start td;
      busy ← busy_of rest;
      Returns ((start, end_) :: busy)
  end.

Definition find_available_slots (fuel : nat) (session : Session) (doctor_id : Z)
    (date : Time.date) (consultation_minutes : Z)
    : option (outcome (list Time.datetime)) :=
  let weekday := Time.weekday date in
  let availability_rows := availability_query session doctor_id weekday in
  match availability_rows with
  | [] => Some (Returns [])
  | _ =>
      let start_of_day := Time.combine date Time.time_min in
      match
        next_day ← Time.add start_of_day (Time.days 1);
        let existing := existing_query session doctor_id start_of_day next_day in
        busy_of existing
      with
      | Raises e => Some (Raises e)
      | Returns busy =>
          match slot_rows fuel busy consultation_minutes date availability_rows ∅ with
          | Some (Returns slots) => Some (Returns (sorted slots))
          | Some (Raises e) => Some (Raises e)
          | None => None
          end
      end
  end.

(** ** [backend/services/ml_model.py] *)

(** A feature value, seen through [float(v)]: it converts to a float, or
    the conversion raises. *)
Inductive pyobj : Type :=
  | Number (x : float)
  | Opaque (e : exn).

Definition float_of (v : pyobj) : outcome float :=
  match v with
  | Number x => Returns x
  | Opaque e => Raises e
  end.

(** The wrapped model, seen through what [predict] does with it: its
    truth value, and each method, when the object has it, as the outcome
    of the whole scoring expression ([float(m.predict_proba(X)[0][1])],
    [float(m.predict(X)[0])]) on the rows [X]. *)
Module Model.
Record t : Type := mk {
  truthy : bool;
  predict_proba : option (list (list float) -> outcome float);
  predict : option (list (list float) -> outcome float)
}.
End Model.

Module Prediction.
Record t : Type := mk { probability : float; label : Z }.
End Prediction.

(** What the surrounding runtime computes: ISO parsing and float
    arithmetic are taken as given. *)
Module PyDatetime.
(** [wall] is the wall-clock reading in microseconds, [utcoffset] the
    offset of its [tzinfo], absent for a naive value. *)
Record t : Type := mk { wall : Z; utcoffset : option Z }.
End PyDatetime.

Class Runtime : Type := {
  (** [datetime.fromisoformat(s)] *)
  fromisoformat : string -> outcome PyDatetime.t;
  (** [round(x, 4)] *)
  round4 : float -> float;
  (** [float(n)] for an integer [n] *)
  float_of_int : Z -> float;
  (** [max((dt - now).total_seconds(), 0.0) / 86400.0] *)
  lead_time_days : Time.datetime -> Time.datetime -> float
}.

Module NoShowPredictor.
Record t : Type := mk { model : option Model.t }.

Definition ordered_keys : list string :=
  [ "past_no_shows"; "lead_time_days"; "time_of_day_bucket"; "day_of_week";
    "chronic_conditions_flag"; "doctor_consultation_duration";
    "recent_no_shows" ].

(** [[float(features.get(k, 0.0)) for k in ordered_keys]] *)
Fixpoint row (features : gmap string pyobj) (keys : list string)
    : outcome (list float) :=
  match keys with
  | [] => Returns []
  | k :: rest =>
      x ← float_of (default (Number 0%float) (features !! k));
      xs ← row features rest;
      Returns (x :: xs)
  end.

(** The body of the [try] block of [predict]. *)
Definition predict_try `{Runtime} (self : t) (features : gmap string pyobj)
    : outcome Prediction.t :=
  X ← (r ← row features ordered_keys; Returns [r]);
  proba ←
    match model self with
    | Some m =>
        if Model.truthy m then
          match Model.predict_proba m with
          | Some predict_proba => predict_proba X
          | None =>
              match Model.predict m with
              | Some predict => predict X
              | None => Returns 0x1.999999999999ap-4%float
              end
          end
        else Returns 0x1.999999999999ap-4%float
    | None => Returns 0x1.999999999999ap-4%float
    end;
  let label := if PrimFloat.leb 0.5%float proba then 1 else 0 in
  Returns (Prediction.mk (round4 proba) label).

Definition predict `{Runtime} (self : t) (features : gmap string pyobj)
    : Prediction.t :=
  match predict_try self features with
  | Returns prediction => prediction
  | Raises _ => Prediction.mk 0%float 0
  end.
End NoShowPredictor.

Definition _create_dummy_model : Model.t :=
  Model.mk true
    (Some (fun X => Returns 0x1.999999999999ap-4%float))
    (Some (fun X => Returns 0%float)).

(** What [load_model] finds on disk: whether the file exists, and what
    unpickling it gives. *)
Record ModelFile : Type := mkModelFile {
  exists_ : bool;
  pickle_load : outcome (option Model.t)
}.

Definition load_model (file : ModelFile) (_MODEL_SINGLETON : option NoShowPredictor.t)
    : option NoShowPredictor.t * NoShowPredictor.t :=
  match _MODEL_SINGLETON with
  | Some predictor => (_MODEL_SINGLETON, predictor)
  | None =>
      let predictor :=
        if negb (exists_ file) then NoShowPredictor.mk (Some _create_dummy_model)
        else
          match pickle_load file with
          | Returns model => NoShowPredictor.mk model
          | Raises _ => NoShowPredictor.mk (Some _create_dummy_model)
          end in
      (Some predictor, predictor)
  end.

Definition get_predictor := load_model.

(** [build_features].  The mapped [Patient] class has neither
    [past_no_shows] nor [medical_history], so both [getattr] calls give
    their defaults; the age is computed and not used. *)
Definition build_features `{Runtime} (now : Time.datetime) (patient : Patient.t)
    (doctor : Doctor.t) (appointment_dt : Time.datetime)
    : outcome (gmap string pyobj) :=
  let lead_time_days := lead_time_days appointment_dt now in
  let hour := Time.hour appointment_dt in
  let tod :=
    if bool_decide (hour < 9) then 0%float
    else if bool_decide (hour < 12) then 1%float
    else if bool_decide (hour < 17) then 2%float
    else 3%float in
  let chronic_flag := 0%float in
  let past_no_shows := float_of_int 0 in
  consultation_duration ←
    match Doctor.consultation_duration doctor with
    | Some n => Returns (float_of_int n)
    | None => Raises (TypeError "float() argument must be a string or a real number, not 'NoneType'")
    end;
  let recent_no_shows := 0%float in
  Returns
    (<["past_no_shows" := Number past_no_shows]>
     (<["lead_time_days" := Number lead_time_days]>
     (<["time_of_day_bucket" := Number tod]>
     (<["day_of_week" := Number (float_of_int (Time.weekday (Time.date_of appointment_dt)))]>
     (<["chronic_conditions_flag" := Number chronic_flag]>
     (<["doctor_consultation_duration" := Number consultation_duration]>
     (<["recent_no_shows" := Number recent_no_shows]> ∅))))))).

(** ** Booking *)

Inductive datetime_input : Type :=
  | InNone
  | InDatetime (d : PyDatetime.t)
  | InStr (s : string)
  | InOther.

(** [d.replace(microsecond=0)] *)
Definition replace_microsecond_0 (d : PyDatetime.t) : PyDatetime.t :=
  PyDatetime.mk (PyDatetime.wall d - PyDatetime.wall d mod Time.US_PER_SECOND)
                (PyDatetime.utcoffset d).

Definition _normalize_datetime_input `{Runtime} (value : datetime_input)
    : outcome Time.datetime :=
  dt ←
    match value with
    | InNone => Raises (ValueError "appointment_datetime is required")
    | InDatetime d => Returns (replace_microsecond_0 d)
    | InStr s => d ← fromisoformat s; Returns (replace_microsecond_0 d)
    | InOther => Raises (ValueError "Unsupported datetime input type")
    end;
  match PyDatetime.utcoffset dt with
  | None => Returns (PyDatetime.wall dt)
  | Some offset => Returns (PyDatetime.wall dt - offset)
  end.

(** The result dictionary of [book_appointment]. *)
Inductive BookResult : Type :=
  | Booked (appointment_id : Z) (no_show_probability : float)
  | Failed (message : string).

(** What a call reads from outside the database: the two clock readings,
    the model file, a storage failure other than the uniqueness
    constraint, if one strikes at [flush] or [commit], and the key the
    storage engine gives the new row ([id] is an integer primary key,
    assigned at [flush]).  Engines choose the key differently; what is
    taken from them is that no row of the table has it. *)
Record Env : Type := mkEnv {
  now : Time.datetime;
  features_now : Time.datetime;
  model_file : ModelFile;
  storage_fault : option exn;
  assigned_id : list Appointment.t -> Z;
  assigned_id_unused :
    forall rows a, a ∈ rows -> Appointment.id a <> assigned_id rows
}.

(** The process: the committed database and the predictor singleton. *)
Record World : Type := mkWorld {
  db : Session;
  _MODEL_SINGLETON : option NoShowPredictor.t
}.

(** [filter_by(id=...).first()] *)
Definition patient_by_id (session : Session) (patient_id : Z) : option Patient.t :=
  first (filter (fun p => Patient.id p = patient_id) (patients session)).
Definition doctor_by_id (session : Session) (doctor_id : Z) : option Doctor.t :=
  first (filter (fun d => Doctor.id d = doctor_id) (doctors session)).
Definition hospital_by_id (session : Session) (hospital_id : Z) : option Hospital.t :=
  first (filter (fun h => Hospital.id h = hospital_id) (hospitals session)).

(** [uix_doctor_datetime]: a row of the same doctor at the same instant. *)
Definition uix_doctor_datetime (rows : list Appointment.t)
    (doctor_id : Z) (appointment_datetime : Time.datetime) : bool :=
  existsb (fun a => bool_decide (Appointment.doctor_id a = doctor_id)
                    && bool_decide (Appointment.appointment_datetime a = appointment_datetime))
          rows.

(** [session.add(appointment); session.flush(); session.commit()]: the
    row gets its key and becomes visible, or the statement raises and
    nothing of it remains.  [appointment] is the pending object, still
    to be given its key. *)
Definition flush_commit (env : Env) (session : Session)
    (appointment : Z -> Appointment.t) : outcome (Session * Z) :=
  let pending := appointment 0 in
  if uix_doctor_datetime (appointments session) (Appointment.doctor_id pending)
       (Appointment.appointment_datetime pending)
  then Raises (IntegrityError "UNIQUE constraint failed: appointments.doctor_id, appointments.appointment_datetime")
  else
    match storage_fault env with
    | Some e => Raises e
    | None =>
        let appointment_id := assigned_id env (appointments session) in
        Returns
          (with_appointments session
             (appointments session ++ [appointment appointment_id]),
           appointment_id)
    end.

(** The [try] block around the prediction. *)
Definition score `{Runtime} (env : Env) (singleton : option NoShowPredictor.t)
    (patient : Patient.t) (doctor : Doctor.t) (appointment_dt : Time.datetime)
    : option NoShowPredictor.t * float :=
  match build_features (features_now env) patient doctor appointment_dt with
  | Returns features =>
      let '(singleton', predictor) := get_predictor (model_file env) singleton in
      let prediction := NoShowPredictor.predict predictor features in
      (singleton', Prediction.probability prediction)
  | Raises _ => (singleton, 0.5%float)
  end.

Definition book_appointment `{Runtime} (env : Env) (world : World)
    (patient_id doctor_id hospital_id : Z) (appointment_datetime : datetime_input)
    (duration_minutes : Z) (reason : option string) : World * BookResult :=
  match _normalize_datetime_input appointment_datetime with
  | Raises e => (world, Failed (str e))
  | Returns appointment_dt =>
      if bool_decide (appointment_dt <= now env) then
        (world, Failed "Cannot book in the past")
      else if bool_decide (appointment_dt > now env + Time.days MAX_BOOKING_DAYS_AHEAD) then
        (world, Failed "Booking too far in future")
      else
        let session := db world in
        let patient := patient_by_id session patient_id in
        let doctor := doctor_by_id session doctor_id in
        let hospital := hospital_by_id session hospital_id in
        match patient, doctor, hospital with
        | None, _, _ => (world, Failed "Patient not found")
        | Some _, None, _ => (world, Failed "Doctor not found")
        | Some _, Some _, None => (world, Failed "Hospital not found")
        | Some patient, Some doctor, Some hospital =>
            let '(singleton, probability) :=
              score env (_MODEL_SINGLETON world) patient doctor appointment_dt in
            let appointment appointment_id :=
              {| Appointment.id := appointment_id;
                 Appointment.patient_id := patient_id;
                 Appointment.doctor_id := doctor_id;
                 Appointment.hospital_id := hospital_id;
                 Appointment.appointment_datetime := appointment_dt;
                 Appointment.duration_minutes := duration_minutes;
                 Appointment.status := SCHEDULED;
                 Appointment.no_show_probability := probability;
                 Appointment.reason := reason;
                 Appointment.updated_at := None;
                 Appointment.cancelled_at := None |} in
            match flush_commit env session appointment with
            | Returns (session', appointment_id) =>
                (mkWorld session' singleton, Booked appointment_id probability)
            | Raises (IntegrityError _) =>
                (mkWorld session singleton, Failed "Slot already booked")
            | Raises _ =>
                (mkWorld session singleton, Failed "Internal server error")
            end
        end
  end.

(** ** Cancellation *)

Module CancelResult.
Record t : Type := mk { success : bool; message : string }.
End CancelResult.

(** The row is looked up with its position, which the update needs. *)
Definition cancel_appointment (now : Time.datetime) (session : Session)
    (appointment_id : Z) : Session * CancelResult.t :=
  match list_find (fun a => Appointment.id a = appointment_id) (appointments session) with
  | None => (session, CancelResult.mk false "Appointment not found")
  | Some (i, appt) =>
      if bool_decide (Appointment.status appt ∈ [CANCELLED; COMPLETED]) then
        (session, CancelResult.mk false "Cannot cancel this appointment")
      else
        let appt' :=
          Appointment.set_updated_at (Appointment.set_status appt CANCELLED) now in
        (with_appointments session (<[i := appt']> (appointments session)),
         CancelResult.mk true "Appointment cancelled")
  end.

(** A runtime for the examples: no string parses, and the floats that
    occur are left as they are by [round(x, 4)]. *)
Definition example_runtime : Runtime :=
  {| fromisoformat := fun _ => Raises (ValueError "Invalid isoformat string");
     round4 := fun x => x;
     float_of_int := fun n => PrimFloat.of_uint63 (Uint63.of_Z n);
     lead_time_days := fun _ _ => 0%float |}.

Definition no_model_file : ModelFile :=
  {| exists_ := false; pickle_load := Raises (OperationalError "No such file") |}.

(** A key for the examples: one more than the largest key of the table,
    and 1 for an empty table, which is the row id SQLite gives while the
    largest key is below [2^63 - 1]. *)
Definition largest_plus_one (rows : list Appointment.t) : Z :=
  match rows with
  | [] => 1
  | a :: rest =>
      1 + foldr (fun b m => Z.max (Appointment.id b) m) (Appointment.id a) rest
  end.

Definition largest_plus_one_unused (rows : list Appointment.t) (a : Appointment.t) :
  a ∈ rows -> Appointment.id a <> largest_plus_one rows.
Proof.
  destruct rows as [|b rest]; [by intros ?%elem_of_nil|]. cbn [largest_plus_one].
  intros Hin.
  enough (Appointment.id a
          <= foldr (fun b m => Z.max (Appointment.id b) m) (Appointment.id b) rest)
    by lia.
  apply elem_of_cons in Hin as [->|Hin].
  - induction rest as [|x rest IH]; cbn [foldr]; lia.
  - induction rest as [|x rest IH]; [by apply elem_of_nil in Hin|].
    cbn [foldr]. apply elem_of_cons in Hin as [->|Hin]; [lia|].
    specialize (IH Hin). lia.
Qed.

(** The clock reads [now]; the model file is absent; storage works. *)
Definition env_at (now : Time.datetime) : Env :=
  {| now := now; features_now := now; model_file := no_model_file;
     storage_fault := None;
     assigned_id := largest_plus_one;
     assigned_id_unused := largest_plus_one_unused |}.

Definition naive (date : Time.date) (t : Time.time) : datetime_input :=
  InDatetime (PyDatetime.mk (Time.combine date t) None).

(** ** The vocabulary of the properties *)

(** *** The slot finder, as the specification words it *)

Section SlotSpec.
Variables (session : Session) (doctor_id : Z) (date : Time.date).
Variable consultation_minutes : Z.

(** An enabled availability window of the doctor on the weekday of [date]. *)
Definition enabled_window (w : DoctorAvailability.t) : Prop :=
  w ∈ doctor_availability session
  /\ DoctorAvailability.doctor_id w = doctor_id
  /\ DoctorAvailability.day_of_week w = Time.weekday date
  /\ DoctorAvailability.is_available w = true.

(** An active appointment of the doctor that starts on [date]. *)
Definition active_that_day (a : Appointment.t) : Prop :=
  a ∈ appointments session
  /\ Appointment.doctor_id a = doctor_id
  /\ Time.combine date 0 <= Appointment.appointment_datetime a
     < Time.combine (date + 1) 0
  /\ (Appointment.status a = SCHEDULED \/ Appointment.status a = CONFIRMED).

(** [candidate < busyEnd AND candidate + consultationMinutes > busyStart] *)
Definition overlap_test (candidate : Time.datetime) (a : Appointment.t) : Prop :=
  let busy_start := Appointment.appointment_datetime a in
  let busy_end := busy_start + Time.minutes (Appointment.duration_minutes a) in
  candidate < busy_end
  /\ candidate + Time.minutes consultation_minutes > busy_start.

(** A start reached from the window's start in steps of 15 minutes while
    the consultation still ends inside the window. *)
Definition walked (w : DoctorAvailability.t) (candidate : Time.datetime) : Prop :=
  exists k : nat,
    candidate = Time.combine date (DoctorAvailability.start_time w)
                + Z.of_nat k * Time.minutes 15
    /\ candidate + Time.minutes consultation_minutes
       <= Time.combine date (DoctorAvailability.end_time w).

Definition free_slot (candidate : Time.datetime) : Prop :=
  (exists w, enabled_window w /\ walked w candidate)
  /\ forall a, active_that_day a -> ~ overlap_test candidate a.

End SlotSpec.

(** *** The limits of [datetime] and [timedelta] *)

(** An instant a [datetime] holds: within the years 1 to 9999. *)
Definition representable (dt : Time.datetime) : Prop :=
  Time.MIN_DATETIME <= dt <= Time.MAX_DATETIME.

(** A number of minutes a [timedelta] holds. *)
Definition delta_ok (m : Z) : Prop :=
  - Time.MAX_DELTA_DAYS <= Time.minutes m / Time.US_PER_DAY <= Time.MAX_DELTA_DAYS.

(** Walking a window stays within the limits: the consultation length is
    a [timedelta]; each candidate that is reached (all earlier ones ended
    inside the window) has a representable end; and when it ends inside
    the window too, the next candidate is representable. *)
Definition walk_in_range (c : Z) (end_dt start_dt : Time.datetime) : Prop :=
  delta_ok c
  /\ forall k : nat,
       (forall j : nat, (j < k)%nat ->
          start_dt + Z.of_nat j * Time.minutes 15 + Time.minutes c <= end_dt) ->
       representable (start_dt + Z.of_nat k * Time.minutes 15 + Time.minutes c)
       /\ (start_dt + Z.of_nat k * Time.minutes 15 + Time.minutes c <= end_dt ->
           representable (start_dt + Z.of_nat (S k) * Time.minutes 15)).

(** Every sum a call computes for a day is within the limits: the start
    of the next day, the end of each active appointment of that day, and
    the walk of each enabled window. *)
Definition sums_in_range (session : Session) (doctor_id : Z) (date : Time.date)
    (c : Z) : Prop :=
  representable (Time.combine date 0 + Time.days 1)
  /\ (forall a, active_that_day session doctor_id date a ->
        delta_ok (Appointment.duration_minutes a)
        /\ representable (Appointment.appointment_datetime a
                          + Time.minutes (Appointment.duration_minutes a)))
  /\ (forall w, enabled_window session doctor_id date w ->
        walk_in_range c
          (Time.combine date (DoctorAvailability.end_time w))
          (Time.combine date (DoctorAvailability.start_time w))).


(** Ascending and free of duplicates. *)
Definition ascending (l : list Z) : Prop := StronglySorted Z.lt l.

(** What a call that comes back has done: it has returned the ascending
    list of the free slots, and then either the doctor has no window that
    weekday or every sum was within the limits; or it has raised
    [OverflowError], and then some sum was not. *)
Definition slots_result (session : Session) (doctor_id : Z) (date : Time.date)
    (c : Z) (r : outcome (list Time.datetime)) : Prop :=
  match r with
  | Returns slots =>
      ((forall w, ~ enabled_window session doctor_id date w)
       \/ sums_in_range session doctor_id date c)
      /\ ascending slots
      /\ forall t, t ∈ slots <-> free_slot session doctor_id date c t
  | Raises e =>
      e = OverflowError
      /\ (exists w, enabled_window session doctor_id date w)
      /\ ~ sums_in_range session doctor_id date c
  end.

(** Iterations the [while] loop still has to make from [current], and
    the most any row of a list needs. *)
Definition walk_steps (c : Z) (end_dt current : Time.datetime) : nat :=
  Z.to_nat ((end_dt - (current + Time.minutes c)) / Time.minutes 15 + 1).

Definition rows_steps (c : Z) (date : Time.date) (rows : list DoctorAvailability.t) : nat :=
  foldr (fun w n =>
           Nat.max (walk_steps c (Time.combine date (DoctorAvailability.end_time w))
                      (Time.combine date (DoctorAvailability.start_time w))) n)
        0%nat rows.

(** *** Booking *)

(** The instant passes both clock checks. *)
Definition bookable_instant (env : Env) (dt : Time.datetime) : Prop :=
  now env < dt <= now env + Time.days 90.

(** The three rows a booking refers to are there. *)
Definition resolved (session : Session) (patient_id doctor_id hospital_id : Z)
    (patient : Patient.t) (doctor : Doctor.t) (hospital : Hospital.t) : Prop :=
  patient_by_id session patient_id = Some patient
  /\ doctor_by_id session doctor_id = Some doctor
  /\ hospital_by_id session hospital_id = Some hospital.

(** *** Cancellation *)

(** The row [filter_by(id=appointment_id).first()] gives, and where. *)
Definition found (session : Session) (appointment_id : Z) (i : nat)
    (appt : Appointment.t) : Prop :=
  list_find (fun a => Appointment.id a = appointment_id) (appointments session)
  = Some (i, appt).

(** *** The predictor *)

(** The method [predict] scores with: [predict_proba] when the model has
    it, else [predict]. *)
Definition scorer (m : Model.t) : option (list (list float) -> outcome float) :=
  match Model.predict_proba m with
  | Some f => Some f
  | None => Model.predict m
  end.

Definition ZERO_PREDICTION : Prediction.t := Prediction.mk 0%float 0.

(** *** Example data *)

(** Monday 16 March 2026, as its ordinal. *)
Definition monday : Time.date := 739691.

(** A doctor available on Mondays from 09:00 to 17:00, with no bookings. *)
Definition clinic : Session :=
  {| hospitals := [Hospital.mk 1];
     doctors := [Doctor.mk 1 (Some 1) (Some 30)];
     patients := [Patient.mk 11 None];
     doctor_availability :=
       [DoctorAvailability.mk 1 1 0 (Time.hm 9 0) (Time.hm 17 0) true];
     appointments := [] |}.

(** [n] starts a quarter of an hour apart, from the time [from] on. *)
Definition quarter_hours (date : Time.date) (from : Time.time) (n : nat)
    : list Time.datetime :=
  map (fun k => Time.combine date from + Z.of_nat k * Time.minutes 15) (seq 0 n).

(** The clinic with one appointment in the given status, Monday 11:00. *)
Definition appointment_7 (status : AppointmentStatus) : Appointment.t :=
  Appointment.mk 7 11 1 1 (Time.combine monday (Time.hm 11 0)) 30 status
    0x1.999999999999ap-4%float None None None.

Definition clinic_with (status : AppointmentStatus) : Session :=
  with_appointments clinic [appointment_7 status].

(** The clinic whose doctor has no consultation duration on record. *)
Definition clinic_null_duration : Session :=
  {| hospitals := [Hospital.mk 1];
     doctors := [Doctor.mk 1 (Some 1) None];
     patients := [Patient.mk 11 None];
     doctor_availability :=
       [DoctorAvailability.mk 1 1 0 (Time.hm 9 0) (Time.hm 17 0) true];
     appointments := [] |}.

(** A model whose [predict_proba] raises. *)
Definition raising_model : Model.t :=
  Model.mk true (Some (fun _ => Raises (ValueError "Input contains NaN"))) None.

(** ** Further vocabulary *)

(** Two sessions offer a doctor the same day: the same enabled windows
    on that weekday and the same active appointments on that date. *)
Definition same_day (s1 s2 : Session) (doctor_id : Z) (date : Time.date) : Prop :=
  (forall w, enabled_window s1 doctor_id date w <-> enabled_window s2 doctor_id date w)
  /\ (forall a, active_that_day s1 doctor_id date a <-> active_that_day s2 doctor_id date a).

(** The uniqueness constraint [uix_doctor_datetime] as a property of the
    table: no two rows of the same doctor at the same instant. *)
Definition unique_doctor_datetime (rows : list Appointment.t) : Prop :=
  NoDup (map (fun a => (Appointment.doctor_id a, Appointment.appointment_datetime a)) rows).

(** The primary key: no two rows with the same [id]. *)
Definition unique_ids (rows : list Appointment.t) : Prop :=
  NoDup (map Appointment.id rows).

(** Two rows that differ at most in [status] and [updated_at]. *)
Definition same_but_status (a a' : Appointment.t) : Prop :=
  Appointment.id a' = Appointment.id a
  /\ Appointment.patient_id a' = Appointment.patient_id a
  /\ Appointment.doctor_id a' = Appointment.doctor_id a
  /\ Appointment.hospital_id a' = Appointment.hospital_id a
  /\ Appointment.appointment_datetime a' = Appointment.appointment_datetime a
  /\ Appointment.duration_minutes a' = Appointment.duration_minutes a
  /\ Appointment.no_show_probability a' = Appointment.no_show_probability a
  /\ Appointment.reason a' = Appointment.reason a
  /\ Appointment.cancelled_at a' = Appointment.cancelled_at a.

(** Two sessions with the same tables but, possibly, the appointments. *)
Definition same_registry (s s' : Session) : Prop :=
  hospitals s' = hospitals s
  /\ doctors s' = doctors s
  /\ patients s' = patients s
  /\ doctor_availability s' = doctor_availability s.

(** A request served by the engine: a booking with what it reads from
    outside, or a cancellation with its clock reading. *)
Inductive request : Type :=
  | BookRequest (env : Env) (patient_id doctor_id hospital_id : Z)
      (appointment_datetime : datetime_input) (duration_minutes : Z)
      (reason : option string)
  | CancelRequest (now : Time.datetime) (appointment_id : Z).

(** The process after one request, and after a sequence of them, one
    after the other. *)
Definition serve `{Runtime} (world : World) (q : request) : World :=
  match q with
  | BookRequest env patient_id doctor_id hospital_id appointment_datetime
      duration_minutes reason =>
      (book_appointment env world patient_id doctor_id hospital_id
         appointment_datetime duration_minutes reason).1
  | CancelRequest now appointment_id =>
      mkWorld (cancel_appointment now (db world) appointment_id).1
        (_MODEL_SINGLETON world)
  end.

Definition serve_all `{Runtime} (world : World) (requests : list request) : World :=
  foldl serve world requests.

(** ** [backend/services/ml_model.py]: [_parse_to_aware] *)

(** [datetime.strptime] with the formats the code uses, taken as given
    like [fromisoformat]: the date of a ["%Y-%m-%d"] string and the time
    of day of a ["%H:%M:%S"] or ["%H:%M"] string. *)
Class Strptime : Type := {
  strptime_ymd : string -> outcome Time.date;
  strptime_hms : string -> outcome Time.time;
  strptime_hm : string -> outcome Time.time
}.



(** [time_of_day_bucket] as [build_features] computes it from the hour. *)
Definition bucket (hour : Z) : float :=
  if bool_decide (hour < 9) then 0%float
  else if bool_decide (hour < 12) then 1%float
  else if bool_decide (hour < 17) then 2%float
  else 3%float.

(** The row [predict] hands to the model for the features of a booking,
    in the order of [ordered_keys]. *)
Definition feature_row `{Runtime} (now : Time.datetime) (n : Z)
    (appointment_dt : Time.datetime) : list float :=
  [ float_of_int 0;
    lead_time_days appointment_dt now;
    bucket (Time.hour appointment_dt);
    float_of_int (Time.weekday (Time.date_of appointment_dt));
    0%float;
    float_of_int n;
    0%float ].

(** The fallback prediction: 0.1 rounded, label 0. *)
Definition FALLBACK_PREDICTION `{Runtime} : Prediction.t :=
  Prediction.mk (round4 0x1.999999999999ap-4%float) 0.

(** A model [predict] does not score with: [None], a falsy object, or an
    object with neither method. *)
Definition unusable (model : option Model.t) : Prop :=
  match model with
  | None => True
  | Some m => Model.truthy m = false \/ scorer m = None
  end.

(** ** [backend/utils/validators.py] and [backend/routes/patient_routes.py] *)

(** A JSON value as the routes look at it.  [JOther] stands for a float,
    an array or an object and carries its truth value. *)
Inductive json : Type :=
  | JNull
  | JBool (b : bool)
  | JInt (n : Z)
  | JStr (s : string)
  | JOther (truthy : bool).

(** [bool(v)] *)
Definition truthy (v : json) : bool :=
  match v with
  | JNull => false
  | JBool b => b
  | JInt n => negb (n =? 0)
  | JStr s => negb (String.eqb s "")
  | JOther t => t
  end.

(** What [request.get_json()] returns: nothing, an object, or another
    JSON value with its truth value. *)
Inductive body : Type :=
  | NoBody
  | Object (d : gmap string json)
  | NotObject (truthy : bool).

(** [request.get_json() or {}]: [None] stands for a value that is not a
    dictionary. *)
Definition or_empty (b : body) : option (gmap string json) :=
  match b with
  | NoBody => Some ∅
  | Object d => Some d
  | NotObject true => None
  | NotObject false => Some ∅
  end.

(** [sep.join(l)] *)
Fixpoint join (sep : string) (l : list string) : string :=
  match l with
  | [] => ""
  | [s] => s
  | s :: rest => s +:+ sep +:+ join sep rest
  end.

(** The pair [(is_valid, error)] of a validator. *)
Inductive validation : Type :=
  | Valid
  | Invalid (error : string).

(** [f not in data or data[f] is None] *)
Definition is_missing (data : gmap string json) (f : string) : bool :=
  match data !! f with
  | None | Some JNull => true
  | Some _ => false
  end.

Definition validate_required_fields (data : option (gmap string json))
    (required_fields : list string) : validation :=
  match data with
  | None => Invalid "Data must be a JSON object"
  | Some data =>
      let missing := List.filter (is_missing data) required_fields in
      match missing with
      | [] => Valid
      | _ => Invalid ("Missing required fields: " +:+ join ", " missing)
      end
  end.

(** What the routes take from Python and from the storage layer for a
    JSON value: [int(v)], and the value an integer or a text column
    keeps for it. *)
Class Coercions : Type := {
  py_int : json -> outcome Z;
  as_integer : json -> Z;
  as_text : json -> option string
}.

(** The response of a route: the JSON payload and the status code. *)
Module Response.
Record t : Type := mk {
  success : bool;
  data : gmap string json;
  message : string;
  status : Z
}.
End Response.

(** [json_response(success, data, message, status)], [data or {}]. *)
Definition json_response (success : bool) (data : option (gmap string json))
    (message : string) (status : Z) : Response.t :=
  Response.mk success (default ∅ data) message status.

(** [data.get(key)]: JSON [null] reads as [None]. *)
Definition get (data : gmap string json) (key : string) : option json :=
  match data !! key with
  | Some JNull => None
  | v => v
  end.

(** [datetime.fromisoformat(v)] and [datetime.strptime(v, "%Y-%m-%d")] on
    a JSON value: anything but a string is a [TypeError]. *)
Definition fromisoformat_json `{Runtime} (v : json) : outcome PyDatetime.t :=
  match v with
  | JStr s => fromisoformat s
  | _ => Raises (TypeError "fromisoformat: argument must be str")
  end.

Definition strptime_ymd_json `{Strptime} (v : json) : outcome Time.date :=
  match v with
  | JStr s => strptime_ymd s
  | _ => Raises (TypeError "strptime() argument 1 must be str")
  end.

(** [patient_routes.book_patient_appointment] *)
Definition book_patient_appointment `{Runtime} `{Strptime} `{Coercions}
    (env : Env) (world : World) (get_json : outcome body) : World * Response.t :=
  match get_json with
  | Raises e => (world, json_response false None (str e) 500)
  | Returns b =>
      let data := or_empty b in
      let required := ["patient_id"; "doctor_id"; "hospital_id"] in
      match validate_required_fields data required, data with
      | Invalid error, _ => (world, json_response false None error 400)
      | Valid, None => (world, json_response false None "Data must be a JSON object" 400)
      | Valid, Some data =>
          let ids :=
            patient_id ← py_int (default JNull (data !! "patient_id"));
            doctor_id ← py_int (default JNull (data !! "doctor_id"));
            hospital_id ← py_int (default JNull (data !! "hospital_id"));
            Returns (patient_id, doctor_id, hospital_id) in
          match ids with
          | Raises e => (world, json_response false None (str e) 500)
          | Returns (patient_id, doctor_id, hospital_id) =>
              let appointment_datetime := get data "appointment_datetime" in
              let preferred_date := get data "preferred_date" in
              let duration_minutes :=
                match data !! "duration_minutes" with
                | None => 30
                | Some v => as_integer v
                end in
              let reason := v ← get data "reason"; as_text v in
              let call (value : datetime_input) :=
                let '(world', result) :=
                  book_appointment env world patient_id doctor_id hospital_id
                    value duration_minutes reason in
                match result with
                | Failed message => (world', json_response false None message 400)
                | Booked _ _ =>
                    (world', json_response true None "Appointment booked" 201)
                end in
              let with_preferred_date :=
                match preferred_date with
                | Some v =>
                    if truthy v then
                      match strptime_ymd_json v with
                      | Returns _ => call InOther
                      | Raises _ =>
                          (world, json_response false None
                                    "Invalid preferred_date format" 400)
                      end
                    else call InNone
                | None => call InNone
                end in
              match appointment_datetime with
              | Some v =>
                  if truthy v then
                    match fromisoformat_json v with
                    | Returns appt_dt => call (InDatetime appt_dt)
                    | Raises _ =>
                        (world, json_response false None
                                  "Invalid appointment_datetime format" 400)
                    end
                  else with_preferred_date
              | None => with_preferred_date
              end
          end
      end
  end.

(** [patient_routes.cancel_appointment]: the status is overwritten with
    no look at what it was, and [updated_at] is written by the column's
    [onupdate=func.now()], [db_now] being the database clock. *)
Definition cancel_appointment_route (db_now : Time.datetime) (session : Session)
    (appointment_id : Z) : Session * Response.t :=
  match list_find (fun a => Appointment.id a = appointment_id) (appointments session) with
  | None => (session, json_response false None "Appointment not found" 404)
  | Some (i, appt) =>
      let appt' :=
        Appointment.set_updated_at (Appointment.set_status appt CANCELLED) db_now in
      (with_appointments session (<[i := appt']> (appointments session)),
       json_response true None "Appointment cancelled" 200)
  end.

(** A runtime, parsers and coercions for the examples: ISO strings are
    not parsed, ["2026-03-17"] is the one date [strptime] knows, an
    integer converts to itself. *)
Definition example_strptime : Strptime :=
  {| strptime_ymd := fun s =>
       if String.eqb s "2026-03-17" then Returns 739692
       else Raises (ValueError "time data does not match format '%Y-%m-%d'");
     strptime_hms := fun _ => Raises (ValueError "time data does not match format '%H:%M:%S'");
     strptime_hm := fun _ => Raises (ValueError "time data does not match format '%H:%M'") |}.

Definition example_coercions : Coercions :=
  {| py_int := fun v =>
       match v with
       | JInt n => Returns n
       | JBool b => Returns (if b then 1 else 0)
       | _ => Raises (TypeError "int() argument must be a string, a bytes-like object or a real number")
       end;
     as_integer := fun v => match v with JInt n => n | _ => 0 end;
     as_text := fun v => match v with JStr s => Some s | _ => None end |}.

(** A booking request that names a preferred date and no start. *)
Definition preferred_date_payload : gmap string json :=
  <["patient_id" := JInt 11]>
  (<["doctor_id" := JInt 1]>
  (<["hospital_id" := JInt 1]>
  (<["preferred_date" := JStr "2026-03-17"]> ∅))).

(** * Properties *)

(** ** The slot finder *)

Lemma active_status_names (s : AppointmentStatus) :
  upper (status_name s) ∈ _status_names [SCHEDULED; CONFIRMED]
  <-> s = SCHEDULED \/ s = CONFIRMED.
Proof.
  unfold _status_names. cbn [map].
  rewrite !elem_of_cons, elem_of_nil.
  destruct s; cbn; (split; [intros [H | [H | []]] | intros [H | H]]);
    try discriminate; auto.
Qed.

Lemma availability_query_spec session doctor_id date w :
  w ∈ availability_query session doctor_id (Time.weekday date)
  <-> enabled_window session doctor_id date w.
Proof.
  unfold availability_query, enabled_window.
  rewrite list_elem_of_filter. tauto.
Qed.

Lemma start_of_next_day date :
  Time.combine date Time.time_min + Time.days 1 = Time.combine (date + 1) 0.
Proof. unfold Time.combine, Time.days, Time.time_min. lia. Qed.

Lemma existing_query_spec session doctor_id date a :
  a ∈ existing_query session doctor_id (Time.combine date Time.time_min)
        (Time.combine date Time.time_min + Time.days 1)
  <-> active_that_day session doctor_id date a.
Proof.
  unfold existing_query, active_that_day.
  rewrite list_elem_of_filter, active_status_names, start_of_next_day.
  unfold Time.time_min. intuition lia.
Qed.

(** The two sums that can leave the limits. *)
Lemma timedelta_minutes_spec m :
  match Time.timedelta_minutes m with
  | Returns td => td = Time.minutes m /\ delta_ok m
  | Raises e => e = OverflowError /\ ~ delta_ok m
  end.
Proof. unfold Time.timedelta_minutes, delta_ok. by case_bool_decide. Qed.

Lemma add_spec dt td :
  match Time.add dt td with
  | Returns t => t = dt + td /\ representable (dt + td)
  | Raises e => e = OverflowError /\ ~ representable (dt + td)
  end.
Proof. unfold Time.add, representable. by case_bool_decide. Qed.

(** The [busy] list is there when every end is. *)
Lemma busy_of_spec existing :
  match busy_of existing with
  | Returns busy =>
      busy = map (fun a => (Appointment.appointment_datetime a,
                            Appointment.appointment_datetime a
                            + Time.minutes (Appointment.duration_minutes a)))
                 existing
      /\ forall a, a ∈ existing ->
           delta_ok (Appointment.duration_minutes a)
           /\ representable (Appointment.appointment_datetime a
                             + Time.minutes (Appointment.duration_minutes a))
  | Raises e =>
      e = OverflowError
      /\ ~ forall a, a ∈ existing ->
             delta_ok (Appointment.duration_minutes a)
             /\ representable (Appointment.appointment_datetime a
                               + Time.minutes (Appointment.duration_minutes a))
  end.
Proof.
  induction existing as [|a rest IH]; cbn [busy_of].
  - split; [done|]. by intros a ?%elem_of_nil.
  - pose proof (timedelta_minutes_spec (Appointment.duration_minutes a)) as Htd.
    destruct (Time.timedelta_minutes _) as [td|e]; cbn [mbind outcome_bind]; cycle 1.
    { destruct Htd as [-> Hno]. split; [done|]. intros Hall. apply Hno.
      apply Hall. by left. }
    destruct Htd as [-> Hok].
    pose proof (add_spec (Appointment.appointment_datetime a)
                  (Time.minutes (Appointment.duration_minutes a))) as Hadd.
    destruct (Time.add _ _) as [t|e]; cbn [mbind outcome_bind]; cycle 1.
    { destruct Hadd as [-> Hno]. split; [done|]. intros Hall. apply Hno.
      apply Hall. by left. }
    destruct Hadd as [-> Hrep].
    destruct (busy_of rest) as [busy|e]; cbn [mbind outcome_bind].
    + destruct IH as [-> Hall]. split; [done|].
      intros a' [->|Hin]%elem_of_cons; auto.
    + destruct IH as [-> Hno]. split; [done|]. intros Hall. apply Hno.
      intros a' Hin. apply Hall. by right.
Qed.

Lemma conflicts_spec existing c t :
  conflicts (map (fun a => (Appointment.appointment_datetime a,
                            Appointment.appointment_datetime a
                            + Time.minutes (Appointment.duration_minutes a)))
                 existing) t (t + Time.minutes c) = true
  <-> exists a, a ∈ existing /\ overlap_test c t a.
Proof.
  unfold conflicts, overlap_test.
  rewrite existsb_exists. split.
  - intros [b [Hb Ht]]. apply in_map_iff in Hb as [a [<- Ha]].
    exists a. apply list_elem_of_In in Ha. cbn in Ht.
    apply andb_true_iff in Ht as [H1 H2].
    apply bool_decide_eq_true in H1, H2. auto.
  - intros [a [Ha [H1 H2]]]. eexists. split.
    + apply in_map_iff. exists a. split; [reflexivity|]. by apply list_elem_of_In.
    + cbn. apply andb_true_iff. split; by apply bool_decide_eq_true.
Qed.

(** More fuel does not change a result. *)
Lemma slot_walk_mono busy c end_dt fuel k :
  forall current slots r,
    slot_walk fuel busy c end_dt current slots = Some r ->
    slot_walk (fuel + k) busy c end_dt current slots = Some r.
Proof.
  induction fuel as [|fuel IH]; intros current slots r Hrun; [done|].
  cbn [slot_walk Nat.add] in *.
  destruct (_ ← Time.timedelta_minutes c; _) as [slot_end|e]; [|done].
  case_bool_decide; [|done].
  destruct (Time.add current _) as [current'|e]; [|done]. by apply IH.
Qed.

Lemma slot_rows_mono busy c date fuel k rows :
  forall slots r,
    slot_rows fuel busy c date rows slots = Some r ->
    slot_rows (fuel + k) busy c date rows slots = Some r.
Proof.
  induction rows as [|w rows IH]; intros slots r Hrun; [done|].
  cbn [slot_rows] in *.
  destruct (slot_walk fuel busy c _ _ slots) as [r1|] eqn:Hwalk; [|done].
  rewrite (slot_walk_mono _ _ _ _ k _ _ _ Hwalk).
  destruct r1 as [slots1|e]; [by apply IH|done].
Qed.

Lemma find_available_slots_mono fuel k session doctor_id date c r :
  find_available_slots fuel session doctor_id date c = Some r ->
  find_available_slots (fuel + k) session doctor_id date c = Some r.
Proof.
  unfold find_available_slots.
  destruct (availability_query session doctor_id (Time.weekday date)); [done|].
  destruct (_ ← Time.add _ _; _) as [busy|e]; [|done].
  destruct (slot_rows fuel _ c date _ ∅) as [r1|] eqn:Hrows; [|done].
  by rewrite (slot_rows_mono _ _ _ _ k _ _ _ Hrows).
Qed.

(** The walk of a window, one candidate on. *)
Lemma walk_in_range_stop c end_dt current :
  delta_ok c ->
  representable (current + Time.minutes c) ->
  ~ current + Time.minutes c <= end_dt ->
  walk_in_range c end_dt current.
Proof.
  intros Hd Hrep Hstop. split; [done|]. intros [|k] Hk.
  - replace (current + Z.of_nat 0 * Time.minutes 15 + Time.minutes c)
      with (current + Time.minutes c) by lia.
    split; [done|]. intros Hle. by destruct Hstop.
  - destruct Hstop. specialize (Hk 0%nat). lia.
Qed.

Lemma walk_in_range_next c end_dt current :
  current + Time.minutes c <= end_dt ->
  walk_in_range c end_dt current ->
  walk_in_range c end_dt (current + Time.minutes 15).
Proof.
  assert (Hinc : Time.minutes 15 = 900000000) by reflexivity.
  intros Hle [Hd Hall]. split; [done|]. intros k Hk.
  destruct (Hall (S k)) as [H1 H2].
  { intros [|j] Hj; [lia|]. specialize (Hk j). rewrite Hinc in *. lia. }
  unfold representable in *. rewrite Hinc in *. split; [lia|].
  intros Hle'. lia.
Qed.

Lemma walk_in_range_prev c end_dt current :
  delta_ok c ->
  representable (current + Time.minutes c) ->
  representable (current + Time.minutes 15) ->
  walk_in_range c end_dt (current + Time.minutes 15) ->
  walk_in_range c end_dt current.
Proof.
  assert (Hinc : Time.minutes 15 = 900000000) by reflexivity.
  intros Hd Hrep Hnext [_ Hall]. split; [done|]. intros [|k] Hk.
  - unfold representable in *. rewrite Hinc in *. split; [lia|]. intros _. lia.
  - destruct (Hall k) as [H1 H2].
    { intros j Hj. specialize (Hk (S j)). rewrite Hinc in *. lia. }
    unfold representable in *. rewrite Hinc in *. split; [lia|].
    intros Hle'. lia.
Qed.

Lemma slot_walk_spec busy c end_dt fuel :
  forall current slots,
    (walk_steps c end_dt current < fuel)%nat ->
    exists r,
      slot_walk fuel busy c end_dt current slots = Some r
      /\ match r with
         | Returns slots' =>
             walk_in_range c end_dt current
             /\ forall t, t ∈ slots' <->
                  t ∈ slots
                  \/ (exists k : nat, t = current + Z.of_nat k * Time.minutes 15)
                     /\ t + Time.minutes c <= end_dt
                     /\ conflicts busy t (t + Time.minutes c) = false
         | Raises e => e = OverflowError /\ ~ walk_in_range c end_dt current
         end.
Proof.
  assert (Hinc : Time.minutes 15 = 900000000) by reflexivity.
  induction fuel as [|fuel IH]; intros current slots Hfuel; [lia|].
  cbn [slot_walk].
  pose proof (timedelta_minutes_spec c) as Htd.
  destruct (Time.timedelta_minutes c) as [td|e]; cbn [mbind outcome_bind]; cycle 1.
  { destruct Htd as [-> Hno]. eexists. split; [reflexivity|].
    split; [done|]. by intros [? _]. }
  destruct Htd as [-> Hdelta].
  pose proof (add_spec current (Time.minutes c)) as Hadd.
  destruct (Time.add current (Time.minutes c)) as [slot_end|e]; cycle 1.
  { destruct Hadd as [-> Hno]. eexists. split; [reflexivity|].
    split; [done|]. intros [_ Hall]. apply Hno.
    destruct (Hall 0%nat) as [Hrep _]; [lia|].
    by replace (current + Z.of_nat 0 * Time.minutes 15 + Time.minutes c)
      with (current + Time.minutes c) in Hrep by lia. }
  destruct Hadd as [-> Hrep].
  case_bool_decide as Hc; cycle 1.
  { eexists. split; [reflexivity|].
    split; [by apply walk_in_range_stop|].
    intros t. split; [by left|].
    intros [Hin | [[k ->] [Hle _]]]; [done|]. rewrite Hinc in *. lia. }
  pose proof (add_spec current (Time.minutes SLOT_INCREMENT_MINUTES)) as Hnext.
  unfold SLOT_INCREMENT_MINUTES in *.
  destruct (Time.add current (Time.minutes 15)) as [current'|e]; cycle 1.
  { destruct Hnext as [-> Hno]. eexists. split; [reflexivity|].
    split; [done|]. intros [_ Hall]. apply Hno.
    destruct (Hall 0%nat) as [_ Hrep']; [lia|].
    replace (current + Time.minutes 15)
      with (current + Z.of_nat 1 * Time.minutes 15) by lia.
    apply Hrep'. lia. }
  destruct Hnext as [-> Hrep'].
  destruct (IH (current + Time.minutes 15)
              (if conflicts busy current (current + Time.minutes c)
               then slots else {[current]} ∪ slots))
    as (r & Hrun & Hr).
  { unfold walk_steps in *. rewrite Hinc in *.
    replace (end_dt - (current + 900000000 + Time.minutes c))
      with (end_dt - (current + Time.minutes c) + (-1) * 900000000) by lia.
    rewrite Z.div_add by lia.
    assert (0 <= (end_dt - (current + Time.minutes c)) / 900000000)
      by (apply Z.div_pos; lia).
    lia. }
  exists r. split; [exact Hrun|]. destruct r as [slots'|e].
  - destruct Hr as [Hrange Hmem]. split; [by apply walk_in_range_prev|].
    intros t. rewrite Hmem. split.
    + intros [Hin | [[k ->] [Hle Hfree]]].
      * destruct (conflicts busy current _) eqn:E; [by left|].
        apply elem_of_union in Hin as [Hin | Hin]; [|by left].
        apply elem_of_singleton in Hin as ->. right.
        split; [exists 0%nat; lia|]. by split.
      * right. split; [exists (S k); lia|]. by split.
    + intros [Hin | [[k ->] [Hle Hfree]]].
      * left. destruct (conflicts busy current _); [done|].
        apply elem_of_union. by right.
      * destruct k as [|k].
        -- left. replace (current + Z.of_nat 0 * Time.minutes 15) with current in * by lia.
           rewrite Hfree. apply elem_of_union. left. by apply elem_of_singleton.
        -- right. split; [exists k; lia|]. by split.
  - destruct Hr as [-> Hno]. split; [done|]. intros Hrange. apply Hno.
    by apply walk_in_range_next.
Qed.

Lemma slot_rows_spec busy c date fuel rows :
  forall slots,
    (rows_steps c date rows < fuel)%nat ->
    exists r,
      slot_rows fuel busy c date rows slots = Some r
      /\ match r with
         | Returns slots' =>
             (forall w, w ∈ rows ->
                walk_in_range c (Time.combine date (DoctorAvailability.end_time w))
                  (Time.combine date (DoctorAvailability.start_time w)))
             /\ forall t, t ∈ slots' <->
                  t ∈ slots
                  \/ (exists w, w ∈ rows /\ walked date c w t)
                     /\ conflicts busy t (t + Time.minutes c) = false
         | Raises e =>
             e = OverflowError
             /\ ~ forall w, w ∈ rows ->
                    walk_in_range c (Time.combine date (DoctorAvailability.end_time w))
                      (Time.combine date (DoctorAvailability.start_time w))
         end.
Proof.
  induction rows as [|w rows IH]; intros slots Hfuel.
  - exists (Returns slots). split; [reflexivity|].
    split; [by intros w ?%elem_of_nil|]. intros t. split; [by left|].
    intros [H | [[w [Hw _]] _]]; [done|]. by apply elem_of_nil in Hw.
  - cbn [rows_steps foldr] in Hfuel. cbn [slot_rows].
    destruct (slot_walk_spec busy c
                (Time.combine date (DoctorAvailability.end_time w)) fuel
                (Time.combine date (DoctorAvailability.start_time w)) slots)
      as (r1 & Hrun1 & Hr1); [fold (rows_steps c date rows) in Hfuel; lia|].
    rewrite Hrun1. destruct r1 as [s1|e]; cycle 1.
    { destruct Hr1 as [-> Hno]. eexists. split; [reflexivity|].
      split; [done|]. intros Hall. apply Hno. apply Hall. by left. }
    destruct Hr1 as [Hrange1 Hmem1].
    destruct (IH s1) as (r2 & Hrun2 & Hr2);
      [fold (rows_steps c date rows) in Hfuel; lia|].
    exists r2. split; [exact Hrun2|]. destruct r2 as [s2|e]; cycle 1.
    { destruct Hr2 as [-> Hno]. split; [done|]. intros Hall. apply Hno.
      intros w' Hw'. apply Hall. by right. }
    destruct Hr2 as [Hrange2 Hmem2]. split.
    { intros w' [->|Hw']%elem_of_cons; auto. }
    intros t. rewrite Hmem2, Hmem1. unfold walked. split.
    + intros [[Hin | [[k ->] [Hle Hfree]]] | [[w' [Hw' Hwalk]] Hfree]].
      * by left.
      * right. split; [|done]. exists w. split; [by left|]. by exists k.
      * right. split; [|done]. exists w'. split; [by right|]. done.
    + intros [Hin | [[w' [Hw' [k [-> Hle]]]] Hfree]]; [left; by left|].
      apply elem_of_cons in Hw' as [-> | Hw'].
      * left. right. split; [by exists k|]. by split.
      * right. split; [|done]. exists w'. split; [done|]. by exists k.
Qed.

Lemma sorted_nodup_ascending (l : list Z) :
  StronglySorted Z.le l -> NoDup l -> ascending l.
Proof.
  unfold ascending. induction 1 as [|x l Hl IH Hx]; intros Hnd; [constructor|].
  apply NoDup_cons in Hnd as [Hnx Hnd].
  constructor; [by apply IH|].
  apply Forall_forall. intros y Hy.
  assert (x <= y) by (eapply Forall_forall in Hx; eauto).
  assert (x <> y) by (intros ->; done). lia.
Qed.

Lemma sorted_spec (slots : gset Z) :
  ascending (sorted slots) /\ forall t, t ∈ sorted slots <-> t ∈ slots.
Proof.
  unfold sorted, ascending.
  assert (Hperm := merge_sort_Permutation Z.le (elements slots)).
  assert (Hnd : NoDup (merge_sort Z.le (elements slots))).
  { rewrite Hperm. apply NoDup_elements. }
  assert (Hs : StronglySorted Z.le (merge_sort Z.le (elements slots))).
  { apply StronglySorted_merge_sort; [intros x y z; lia | intros x y; lia]. }
  split.
  - by apply sorted_nodup_ascending.
  - intros t. rewrite Hperm. apply elem_of_elements.
Qed.

(** The slots of a day: enough fuel brings the call back, whatever the
    sign of [consultation_minutes]. *)
Lemma find_available_slots_spec session doctor_id date consultation_minutes :
  exists fuel0 r,
    (forall fuel, (fuel0 <= fuel)%nat ->
       find_available_slots fuel session doctor_id date consultation_minutes
       = Some r)
    /\ slots_result session doctor_id date consultation_minutes r.
Proof.
  unfold find_available_slots.
  destruct (availability_query session doctor_id (Time.weekday date))
    as [|w0 rows0] eqn:Hrows.
  - exists 0%nat, (Returns []). split; [done|]. split; [|split; [constructor|]].
    + left. intros w Hw. apply availability_query_spec in Hw.
      rewrite Hrows in Hw. by apply elem_of_nil in Hw.
    + intros t. split; [by intros ?%elem_of_nil|].
      intros [[w [Hw _]] _]. apply availability_query_spec in Hw.
      rewrite Hrows in Hw. by apply elem_of_nil in Hw.
  - set (rows := w0 :: rows0) in *.
    assert (Hwin : exists w, enabled_window session doctor_id date w).
    { exists w0. apply availability_query_spec. rewrite Hrows. by left. }
    pose proof (add_spec (Time.combine date Time.time_min) (Time.days 1)) as Hnext.
    destruct (Time.add _ _) as [next_day|e]; cbn [mbind outcome_bind]; cycle 1.
    { destruct Hnext as [-> Hno]. exists 0%nat, (Raises OverflowError).
      split; [done|]. split; [done|]. split; [done|]. by intros [? _]. }
    destruct Hnext as [-> Hrep].
    set (existing := existing_query _ _ _ _).
    pose proof (busy_of_spec existing) as Hbusy.
    destruct (busy_of existing) as [busy|e]; cycle 1.
    { destruct Hbusy as [-> Hno]. exists 0%nat, (Raises OverflowError).
      split; [done|]. split; [done|]. split; [done|].
      intros (_ & Hall & _). apply Hno. intros a Ha. apply Hall.
      by apply existing_query_spec. }
    destruct Hbusy as [-> Hends].
    set (busy := map _ existing).
    destruct (slot_rows_spec busy consultation_minutes date
                (S (rows_steps consultation_minutes date rows)) rows ∅)
      as (r & Hrun & Hr); [lia|].
    assert (Hmore : forall fuel,
              (S (rows_steps consultation_minutes date rows) <= fuel)%nat ->
              slot_rows fuel busy consultation_minutes date rows ∅ = Some r).
    { intros fuel Hfuel.
      replace fuel with (S (rows_steps consultation_minutes date rows)
                         + (fuel - S (rows_steps consultation_minutes date rows)))%nat
        by lia.
      by apply slot_rows_mono. }
    exists (S (rows_steps consultation_minutes date rows)).
    destruct r as [slots|e]; cycle 1.
    { destruct Hr as [-> Hno]. exists (Raises OverflowError).
      split; [intros fuel Hfuel; by rewrite Hmore|].
      split; [done|]. split; [done|]. intros (_ & _ & Hall). apply Hno.
      intros w Hw. apply Hall. apply availability_query_spec. by rewrite Hrows. }
    destruct Hr as [Hrange Hmem]. exists (Returns (sorted slots)).
    split; [intros fuel Hfuel; by rewrite Hmore|].
    destruct (sorted_spec slots) as [Hasc Hsorted].
    split; [|split; [exact Hasc|]].
    + right. split; [done|]. split.
      * intros a Ha. apply Hends. by apply existing_query_spec.
      * intros w Hw. apply Hrange. apply availability_query_spec in Hw.
        by rewrite Hrows in Hw.
    + intros t. rewrite Hsorted, Hmem. unfold free_slot. split.
      * intros [Hin | [[w [Hw Hwalk]] Hfree]]; [by apply not_elem_of_empty in Hin|].
        split.
        -- exists w. split; [|done]. apply availability_query_spec. by rewrite Hrows.
        -- intros a Ha Hov. apply existing_query_spec in Ha.
           assert (conflicts busy t (t + Time.minutes consultation_minutes) = true)
             by (apply conflicts_spec; eauto).
           congruence.
      * intros [[w [Hw Hwalk]] Hfree]. right. split.
        -- exists w. split; [|done]. apply availability_query_spec in Hw.
           by rewrite Hrows in Hw.
        -- apply not_true_iff_false. intros Hc.
           apply conflicts_spec in Hc as [a [Ha Hov]].
           apply existing_query_spec in Ha. by apply (Hfree a).
Qed.

(** Whatever the fuel, a call that comes back has done the above. *)
Lemma find_available_slots_sound fuel session doctor_id date c r :
  find_available_slots fuel session doctor_id date c = Some r ->
  slots_result session doctor_id date c r.
Proof.
  intros Hrun.
  destruct (find_available_slots_spec session doctor_id date c)
    as (fuel0 & r0 & Hall & Hr0).
  apply (find_available_slots_mono _ fuel0) in Hrun.
  rewrite Hall in Hrun by lia. congruence.
Qed.












(** ** Booking *)

Section Booking.
Context `{Runtime}.
Variables (env : Env) (world : World).
Variables (patient_id doctor_id hospital_id : Z).
Variables (appointment_datetime : datetime_input).
Variables (duration_minutes : Z) (reason : option string).

Local Abbreviation booked :=
  (book_appointment env world patient_id doctor_id hospital_id
     appointment_datetime duration_minutes reason).

(** Past the validations, the call is the prediction followed by the
    insertion. *)
Lemma book_appointment_valid dt patient doctor hospital :
  _normalize_datetime_input appointment_datetime = Returns dt ->
  bookable_instant env dt ->
  resolved (db world) patient_id doctor_id hospital_id patient doctor hospital ->
  booked =
    let sp := score env (_MODEL_SINGLETON world) patient doctor dt in
    let appointment appointment_id :=
      Appointment.mk appointment_id patient_id doctor_id hospital_id dt
        duration_minutes SCHEDULED sp.2 reason None None in
    match flush_commit env (db world) appointment with
    | Returns (session', appointment_id) =>
        (mkWorld session' sp.1, Booked appointment_id sp.2)
    | Raises (IntegrityError _) =>
        (mkWorld (db world) sp.1, Failed "Slot already booked")
    | Raises _ =>
        (mkWorld (db world) sp.1, Failed "Internal server error")
    end.
Proof.
  intros Hdt [Hlo Hhi] (Hp & Hd & Hh).
  unfold book_appointment. rewrite Hdt.
  rewrite bool_decide_eq_false_2 by lia.
  rewrite bool_decide_eq_false_2 by (unfold MAX_BOOKING_DAYS_AHEAD; lia).
  rewrite Hp, Hd, Hh.
  by destruct (score env (_MODEL_SINGLETON world) patient doctor dt).
Qed.

(** A request for a doctor and start that a row already has is refused
    at the insertion, and nothing is written. *)
Lemma book_unique_violation dt patient doctor hospital :
  _normalize_datetime_input appointment_datetime = Returns dt ->
  bookable_instant env dt ->
  resolved (db world) patient_id doctor_id hospital_id patient doctor hospital ->
  uix_doctor_datetime (appointments (db world)) doctor_id dt = true ->
  booked.2 = Failed "Slot already booked" /\ db booked.1 = db world.
Proof.
  intros Hdt Hin Hres Huix.
  rewrite (book_appointment_valid dt patient doctor hospital) by done.
  cbn zeta. unfold flush_commit.
  cbn [Appointment.doctor_id Appointment.appointment_datetime].
  by rewrite Huix.
Qed.

(** C2: when the insertion fails on the uniqueness constraint over
    (doctor, start), the call answers "Slot already booked", the one
    slot-taken outcome the function has, not the generic "Internal
    server error", and the database is as it was before the call. *)
Theorem book_appointment_unique_violation dt patient doctor hospital :
  _normalize_datetime_input appointment_datetime = Returns dt ->
  bookable_instant env dt ->
  resolved (db world) patient_id doctor_id hospital_id patient doctor hospital ->
  uix_doctor_datetime (appointments (db world)) doctor_id dt = true ->
  booked.2 = Failed "Slot already booked"
  /\ booked.2 <> Failed "Internal server error"
  /\ db booked.1 = db world.
Proof.
  intros Hdt Hin Hres Huix.
  destruct (book_unique_violation dt patient doctor hospital Hdt Hin Hres Huix)
    as [Hr Hdb].
  split; [exact Hr|]. split; [|exact Hdb].
  rewrite Hr. discriminate.
Qed.


(** C8, as the code has it: an exception raised while scoring does not
    abort the booking and is not surfaced: a request that passes the
    validations and meets no stored row and no storage failure is
    booked, and its row is stored with the probability the call
    reports.  That probability is the default 0.5 when building the
    features raises, and 0.0 when the features are built and anything
    raises inside [predict], the wrapped model included. *)
Theorem book_appointment_scoring_failure dt patient doctor hospital :
  _normalize_datetime_input appointment_datetime = Returns dt ->
  bookable_instant env dt ->
  resolved (db world) patient_id doctor_id hospital_id patient doctor hospital ->
  uix_doctor_datetime (appointments (db world)) doctor_id dt = false ->
  storage_fault env = None ->
  exists appointment_id probability,
    booked.2 = Booked appointment_id probability
    /\ appointments (db booked.1) =
       appointments (db world) ++
       [Appointment.mk appointment_id patient_id doctor_id hospital_id dt
          duration_minutes SCHEDULED probability reason None None]
    /\ (forall e,
          build_features (features_now env) patient doctor dt = Raises e ->
          probability = 0.5%float)
    /\ (forall features e,
          build_features (features_now env) patient doctor dt = Returns features ->
          NoShowPredictor.predict_try
            (get_predictor (model_file env) (_MODEL_SINGLETON world)).2 features
          = Raises e ->
          probability = 0%float).
Proof.
  intros Hdt Hin Hres Huix Hfault.
  rewrite (book_appointment_valid dt patient doctor hospital) by done.
  cbn zeta. unfold flush_commit.
  cbn [Appointment.doctor_id Appointment.appointment_datetime].
  rewrite Huix, Hfault. cbn [fst snd db appointments with_appointments].
  eexists _, _. split; [reflexivity|]. split; [reflexivity|].
  unfold score. split.
  - intros e Hfeat. by rewrite Hfeat.
  - intros features e Hfeat Hraise. rewrite Hfeat.
    destruct (get_predictor (model_file env) (_MODEL_SINGLETON world))
      as [singleton predictor].
    cbn [fst snd] in *. unfold NoShowPredictor.predict. by rewrite Hraise.
Qed.

(** A booking that succeeds adds its row, and only that. *)
Lemma book_appointment_booked appointment_id probability :
  booked.2 = Booked appointment_id probability ->
  exists dt,
    _normalize_datetime_input appointment_datetime = Returns dt
    /\ db booked.1 =
       with_appointments (db world)
         (appointments (db world) ++
          [Appointment.mk appointment_id patient_id doctor_id hospital_id dt
             duration_minutes SCHEDULED probability reason None None]).
Proof.
  unfold book_appointment.
  destruct (_normalize_datetime_input appointment_datetime) as [dt|]; [|done].
  repeat case_bool_decide; [done..|].
  destruct (patient_by_id (db world) patient_id),
    (doctor_by_id (db world) doctor_id),
    (hospital_by_id (db world) hospital_id); try done.
  destruct (score _ _ _ _ _) as [s p].
  unfold flush_commit.
  cbn [Appointment.doctor_id Appointment.appointment_datetime].
  destruct (uix_doctor_datetime _ _ _); [done|].
  destruct (storage_fault env) as [[]|]; try done.
  cbn. intros [= <- <-]. by exists dt.
Qed.

End Booking.

Lemma uix_doctor_datetime_app rows a :
  uix_doctor_datetime (rows ++ [a]) (Appointment.doctor_id a)
    (Appointment.appointment_datetime a) = true.
Proof.
  unfold uix_doctor_datetime. rewrite existsb_app. apply orb_true_iff. right.
  cbn. by rewrite !bool_decide_eq_true_2.
Qed.

(** Booked once, the same doctor and start cannot be booked again: a
    second call that passes the validations is answered "Slot already
    booked", whatever its patient, hospital and duration. *)
Lemma book_appointment_twice `{Runtime} env env' world
    patient_id doctor_id hospital_id appointment_datetime duration_minutes reason
    patient_id' hospital_id' duration_minutes' reason'
    appointment_id probability dt patient doctor hospital :
  let first_call :=
    book_appointment env world patient_id doctor_id hospital_id
      appointment_datetime duration_minutes reason in
  let second_call :=
    book_appointment env' first_call.1 patient_id' doctor_id hospital_id'
      appointment_datetime duration_minutes' reason' in
  first_call.2 = Booked appointment_id probability ->
  _normalize_datetime_input appointment_datetime = Returns dt ->
  bookable_instant env' dt ->
  resolved (db world) patient_id' doctor_id hospital_id' patient doctor hospital ->
  second_call.2 = Failed "Slot already booked"
  /\ db second_call.1 = db first_call.1.
Proof.
  intros first_call second_call Hfirst Hdt Hin (Hp & Hd & Hh).
  destruct (book_appointment_booked env world patient_id doctor_id hospital_id
              appointment_datetime duration_minutes reason appointment_id
              probability Hfirst) as [dt' [Hdt' Hdb]].
  fold first_call in Hdb. assert (dt' = dt) as -> by congruence.
  destruct (book_unique_violation env' first_call.1 patient_id'
              doctor_id hospital_id' appointment_datetime duration_minutes'
              reason' dt patient doctor hospital) as (Hr & Hs); try done.
  - by rewrite Hdb.
  - rewrite Hdb. cbn [appointments with_appointments].
    apply (uix_doctor_datetime_app _
             (Appointment.mk appointment_id patient_id doctor_id hospital_id dt
                duration_minutes SCHEDULED probability reason None None)).
Qed.

(** *** Booking at concrete inputs *)

(** Monday 11:00 is taken in [clinic_with SCHEDULED]; a second request
    for it, made at midnight, meets the uniqueness constraint. *)
Lemma book_appointment_unique_violation_witness :
  let env := env_at (Time.combine monday 0) in
  let world := mkWorld (clinic_with SCHEDULED) None in
  let dt := Time.combine monday (Time.hm 11 0) in
  let booked :=
    book_appointment (H := example_runtime) env world 11 1 1
      (naive monday (Time.hm 11 0)) 45 None in
  (_normalize_datetime_input (H := example_runtime) (naive monday (Time.hm 11 0))
   = Returns dt
   /\ bookable_instant env dt
   /\ resolved (db world) 11 1 1 (Patient.mk 11 None)
        (Doctor.mk 1 (Some 1) (Some 30)) (Hospital.mk 1)
   /\ uix_doctor_datetime (appointments (db world)) 1 dt = true)
  /\ booked.2 = Failed "Slot already booked"
  /\ booked.2 <> Failed "Internal server error"
  /\ db booked.1 = db world.
Proof.
  assert (Hdt : _normalize_datetime_input (H := example_runtime)
                  (naive monday (Time.hm 11 0))
                = Returns (Time.combine monday (Time.hm 11 0)))
    by (vm_compute; reflexivity).
  assert (Hin : bookable_instant (env_at (Time.combine monday 0))
                  (Time.combine monday (Time.hm 11 0)))
    by (vm_compute; split; [reflexivity | discriminate]).
  assert (Hres : resolved (clinic_with SCHEDULED) 11 1 1 (Patient.mk 11 None)
                   (Doctor.mk 1 (Some 1) (Some 30)) (Hospital.mk 1))
    by (vm_compute; repeat split; reflexivity).
  assert (Huix : uix_doctor_datetime (appointments (clinic_with SCHEDULED)) 1
                   (Time.combine monday (Time.hm 11 0)) = true)
    by (vm_compute; reflexivity).
  cbn zeta. split; [by repeat split|].
  exact (book_appointment_unique_violation (H := example_runtime)
           (env_at (Time.combine monday 0)) (mkWorld (clinic_with SCHEDULED) None)
           11 1 1 (naive monday (Time.hm 11 0)) 45 None
           (Time.combine monday (Time.hm 11 0)) (Patient.mk 11 None)
           (Doctor.mk 1 (Some 1) (Some 30)) (Hospital.mk 1)
           Hdt Hin Hres Huix).
Defined.

(** C4 fails on the code: [book_appointment] never reads the
    availability table.  The doctor of [clinic] is available on Mondays
    from 09:00 to 17:00 only, and a request for Tuesday 03:00 is booked. *)
Theorem book_appointment_outside_availability :
  let env := env_at (Time.combine monday 0) in
  let booked :=
    book_appointment (H := example_runtime) env (mkWorld clinic None) 11 1 1
      (naive (monday + 1) (Time.hm 3 0)) 30 None in
  availability_query clinic 1 (Time.weekday (monday + 1)) = []
  /\ booked.2 = Booked 1 0x1.999999999999ap-4%float
  /\ appointments (db booked.1) =
     [Appointment.mk 1 11 1 1 (Time.combine (monday + 1) (Time.hm 3 0)) 30
        SCHEDULED 0x1.999999999999ap-4%float None None None].
Proof. cbn zeta. split; [|split]; vm_compute; reflexivity. Qed.



(** The doctor of [clinic_null_duration] has no consultation duration,
    so building the features raises; the booking goes through with 0.5. *)
Lemma book_appointment_scoring_failure_witness :
  let env := env_at (Time.combine monday 0) in
  let world := mkWorld clinic_null_duration None in
  let dt := Time.combine monday (Time.hm 11 0) in
  let patient := Patient.mk 11 None in
  let doctor := Doctor.mk 1 (Some 1) None in
  let booked :=
    book_appointment (H := example_runtime) env world 11 1 1
      (naive monday (Time.hm 11 0)) 30 None in
  (_normalize_datetime_input (H := example_runtime) (naive monday (Time.hm 11 0))
   = Returns dt
   /\ bookable_instant env dt
   /\ resolved (db world) 11 1 1 patient doctor (Hospital.mk 1)
   /\ uix_doctor_datetime (appointments (db world)) 1 dt = false
   /\ storage_fault env = None)
  /\ exists appointment_id probability,
       booked.2 = Booked appointment_id probability
       /\ appointments (db booked.1) =
          appointments (db world) ++
          [Appointment.mk appointment_id 11 1 1 dt 30 SCHEDULED probability
             None None None]
       /\ (forall e,
             build_features (H := example_runtime) (features_now env) patient
               doctor dt = Raises e ->
             probability = 0.5%float)
       /\ (forall features e,
             build_features (H := example_runtime) (features_now env) patient
               doctor dt = Returns features ->
             NoShowPredictor.predict_try (H := example_runtime)
               (get_predictor (model_file env) (_MODEL_SINGLETON world)).2 features
             = Raises e ->
             probability = 0%float).
Proof.
  assert (Hdt : _normalize_datetime_input (H := example_runtime)
                  (naive monday (Time.hm 11 0))
                = Returns (Time.combine monday (Time.hm 11 0)))
    by (vm_compute; reflexivity).
  assert (Hin : bookable_instant (env_at (Time.combine monday 0))
                  (Time.combine monday (Time.hm 11 0)))
    by (vm_compute; split; [reflexivity | discriminate]).
  assert (Hres : resolved clinic_null_duration 11 1 1 (Patient.mk 11 None)
                   (Doctor.mk 1 (Some 1) None) (Hospital.mk 1))
    by (vm_compute; repeat split; reflexivity).
  assert (Huix : uix_doctor_datetime (appointments clinic_null_duration) 1
                   (Time.combine monday (Time.hm 11 0)) = false)
    by reflexivity.
  cbn zeta. split; [by repeat split|].
  exact (book_appointment_scoring_failure (H := example_runtime)
           (env_at (Time.combine monday 0)) (mkWorld clinic_null_duration None)
           11 1 1 (naive monday (Time.hm 11 0)) 30 None
           (Time.combine monday (Time.hm 11 0)) (Patient.mk 11 None)
           (Doctor.mk 1 (Some 1) None) (Hospital.mk 1)
           Hdt Hin Hres Huix eq_refl).
Defined.

(** C8, as stated, fails: when the features are built and the wrapped
    model raises, [predict] answers 0.0 and the appointment is stored
    with 0.0, not with 0.5. *)
Lemma book_appointment_model_failure :
  let env := env_at (Time.combine monday 0) in
  let predictor := NoShowPredictor.mk (Some raising_model) in
  let world := mkWorld clinic (Some predictor) in
  let dt := Time.combine monday (Time.hm 11 0) in
  let booked :=
    book_appointment (H := example_runtime) env world 11 1 1
      (naive monday (Time.hm 11 0)) 30 None in
  (exists features,
     build_features (H := example_runtime) (features_now env) (Patient.mk 11 None)
       (Doctor.mk 1 (Some 1) (Some 30)) dt = Returns features
     /\ NoShowPredictor.predict_try (H := example_runtime) predictor features
        = Raises (ValueError "Input contains NaN"))
  /\ booked.2 = Booked 1 0%float
  /\ Appointment.no_show_probability <$> appointments (db booked.1) = [0%float]
  /\ booked.2 <> Booked 1 0.5%float.
Proof.
  cbn zeta.
  assert (Hb : (book_appointment (H := example_runtime)
                  (env_at (Time.combine monday 0))
                  (mkWorld clinic (Some (NoShowPredictor.mk (Some raising_model))))
                  11 1 1 (naive monday (Time.hm 11 0)) 30 None).2
               = Booked 1 0%float)
    by (vm_compute; reflexivity).
  split; [|split; [exact Hb|split]].
  - eexists. split; [reflexivity|]. vm_compute. reflexivity.
  - vm_compute. reflexivity.
  - rewrite Hb. by intros [= Heq].
Qed.

(** ** Cancellation *)

Section Cancel.
Variables (now : Time.datetime) (session : Session) (appointment_id : Z).
Variables (i : nat) (appt : Appointment.t).
Hypothesis Hfound : found session appointment_id i appt.

Lemma cancel_rejected :
  Appointment.status appt = CANCELLED \/ Appointment.status appt = COMPLETED ->
  cancel_appointment now session appointment_id
  = (session, CancelResult.mk false "Cannot cancel this appointment").
Proof.
  intros Hst. unfold cancel_appointment. rewrite Hfound.
  rewrite bool_decide_eq_true_2; [done|].
  destruct Hst as [-> | ->]; set_solver.
Qed.

Lemma cancel_accepted :
  Appointment.status appt <> CANCELLED ->
  Appointment.status appt <> COMPLETED ->
  cancel_appointment now session appointment_id
  = (with_appointments session
       (<[i := Appointment.set_updated_at (Appointment.set_status appt CANCELLED) now]>
          (appointments session)),
     CancelResult.mk true "Appointment cancelled").
Proof.
  intros H1 H2. unfold cancel_appointment. rewrite Hfound.
  rewrite bool_decide_eq_false_2; [done|].
  rewrite !elem_of_cons, elem_of_nil. tauto.
Qed.

(** The cancelled row is the one a later lookup finds. *)
Lemma found_after_cancel :
  found
    (with_appointments session
       (<[i := Appointment.set_updated_at (Appointment.set_status appt CANCELLED) now]>
          (appointments session)))
    appointment_id i
    (Appointment.set_updated_at (Appointment.set_status appt CANCELLED) now).
Proof.
  unfold found in *. cbn [appointments with_appointments].
  apply list_find_Some in Hfound as (Hi & Hid & Hbefore).
  apply list_find_insert_Some. right. left.
  split_and!; [done | done | by eapply lookup_lt_Some | done | done].
Qed.
End Cancel.

(** Of two cancellations of an appointment that is neither cancelled nor
    completed, the first succeeds and the second is refused and changes
    nothing. *)
Lemma cancel_twice now now' session appointment_id i appt :
  found session appointment_id i appt ->
  Appointment.status appt <> CANCELLED ->
  Appointment.status appt <> COMPLETED ->
  let first_call := cancel_appointment now session appointment_id in
  let second_call := cancel_appointment now' first_call.1 appointment_id in
  CancelResult.success first_call.2 = true
  /\ second_call = (first_call.1, CancelResult.mk false "Cannot cancel this appointment").
Proof.
  intros Hfound H1 H2. cbn zeta.
  rewrite (cancel_accepted now session appointment_id i appt) by done.
  split; [done|]. cbn [fst].
  eapply cancel_rejected; [by apply found_after_cancel|]. by left.
Qed.

(** C6 fails on the code for NO_SHOW: the guard of [cancel_appointment]
    lists CANCELLED and COMPLETED only, so an appointment recorded as a
    no-show is cancelled like an active one. *)
Theorem cancel_appointment_no_show :
  let now := Time.combine monday (Time.hm 12 0) in
  let cancelled := cancel_appointment now (clinic_with NO_SHOW) 7 in
  cancelled.2 = CancelResult.mk true "Appointment cancelled"
  /\ Appointment.status <$> appointments cancelled.1 = [CANCELLED]
  /\ cancel_appointment now (clinic_with CANCELLED) 7
     = (clinic_with CANCELLED, CancelResult.mk false "Cannot cancel this appointment")
  /\ cancel_appointment now (clinic_with COMPLETED) 7
     = (clinic_with COMPLETED, CancelResult.mk false "Cannot cancel this appointment").
Proof. cbn zeta. repeat split; vm_compute; reflexivity. Qed.

(** C7 fails on the code for the timestamp: a successful cancellation
    sets the status to CANCELLED and [updated_at] to the current time,
    and leaves [cancelled_at] as it was, here empty. *)
Theorem cancel_appointment_cancelled_at :
  let now := Time.combine monday (Time.hm 8 0) in
  let cancelled := cancel_appointment now (clinic_with SCHEDULED) 7 in
  cancelled.2 = CancelResult.mk true "Appointment cancelled"
  /\ Appointment.status <$> appointments cancelled.1 = [CANCELLED]
  /\ Appointment.updated_at <$> appointments cancelled.1 = [Some now]
  /\ Appointment.cancelled_at <$> appointments cancelled.1 = [None].
Proof. cbn zeta. repeat split; vm_compute; reflexivity. Qed.

(** Whatever the appointment, cancelling it does not write [cancelled_at]. *)
Lemma cancel_appointment_keeps_cancelled_at now session appointment_id i appt :
  found session appointment_id i appt ->
  Appointment.status appt <> CANCELLED ->
  Appointment.status appt <> COMPLETED ->
  exists appt',
    appointments (cancel_appointment now session appointment_id).1 !! i = Some appt'
    /\ Appointment.status appt' = CANCELLED
    /\ Appointment.updated_at appt' = Some now
    /\ Appointment.cancelled_at appt' = Appointment.cancelled_at appt.
Proof.
  intros Hfound H1 H2.
  rewrite (cancel_accepted now session appointment_id i appt) by done.
  cbn [fst appointments with_appointments].
  apply list_find_Some in Hfound as (Hi & _).
  eexists. split.
  - apply list_lookup_insert_eq. by eapply lookup_lt_Some.
  - by repeat split.
Qed.

(** ** The predictor *)

Section Predictor.
Context `{Runtime}.
Variables (self : NoShowPredictor.t) (features : gmap string pyobj).

Lemma predict_catches e :
  NoShowPredictor.predict_try self features = Raises e ->
  NoShowPredictor.predict self features = ZERO_PREDICTION.
Proof. unfold NoShowPredictor.predict. by intros ->. Qed.

Lemma predict_unconvertible_feature e :
  NoShowPredictor.row features NoShowPredictor.ordered_keys = Raises e ->
  NoShowPredictor.predict self features = ZERO_PREDICTION.
Proof.
  intros Hrow. apply (predict_catches e).
  unfold NoShowPredictor.predict_try. by rewrite Hrow.
Qed.

Lemma predict_model_raises m f r e :
  NoShowPredictor.model self = Some m ->
  Model.truthy m = true ->
  scorer m = Some f ->
  NoShowPredictor.row features NoShowPredictor.ordered_keys = Returns r ->
  f [r] = Raises e ->
  NoShowPredictor.predict self features = ZERO_PREDICTION.
Proof.
  intros Hm Ht Hs Hrow Hf. apply (predict_catches e).
  unfold NoShowPredictor.predict_try. rewrite Hrow, Hm, Ht. cbn.
  unfold scorer in Hs.
  destruct (Model.predict_proba m) as [g|]; [|rewrite Hs]; simplify_eq; by rewrite Hf.
Qed.
End Predictor.

(** C10: [NoShowPredictor.predict] always returns a prediction: what its
    [try] block computes, or probability 0.0 with label 0 when anything
    in the block raises, in particular the wrapped model.  In
    [book_appointment], once the features are built the probability is
    the predictor's, hence 0.0 when the model raises; the default 0.5 is
    what the booking takes when building the features raises. *)
Theorem predict_total `{Runtime} (self : NoShowPredictor.t)
    (features : gmap string pyobj) :
  (forall prediction,
     NoShowPredictor.predict_try self features = Returns prediction ->
     NoShowPredictor.predict self features = prediction)
  /\ (forall e,
        NoShowPredictor.predict_try self features = Raises e ->
        NoShowPredictor.predict self features = ZERO_PREDICTION)
  /\ (forall m f r e,
        NoShowPredictor.model self = Some m ->
        Model.truthy m = true ->
        scorer m = Some f ->
        NoShowPredictor.row features NoShowPredictor.ordered_keys = Returns r ->
        f [r] = Raises e ->
        NoShowPredictor.predict self features = ZERO_PREDICTION)
  /\ (forall env singleton patient doctor dt,
        build_features (features_now env) patient doctor dt = Returns features ->
        (get_predictor (model_file env) singleton).2 = self ->
        (score env singleton patient doctor dt).2
        = Prediction.probability (NoShowPredictor.predict self features)
        /\ forall e,
             NoShowPredictor.predict_try self features = Raises e ->
             (score env singleton patient doctor dt).2 = 0%float)
  /\ (forall env singleton patient doctor dt e,
        build_features (features_now env) patient doctor dt = Raises e ->
        score env singleton patient doctor dt = (singleton, 0.5%float)).
Proof.
  split_and!.
  - intros prediction Hp. unfold NoShowPredictor.predict. by rewrite Hp.
  - apply predict_catches.
  - apply predict_model_raises.
  - intros env singleton patient doctor dt Hfeat Hpred.
    assert (Hscore : (score env singleton patient doctor dt).2
                     = Prediction.probability (NoShowPredictor.predict self features)).
    { unfold score. rewrite Hfeat. rewrite <- Hpred.
      by destruct (get_predictor (model_file env) singleton). }
    split; [exact Hscore|].
    intros e He. rewrite Hscore. by rewrite (predict_catches self features e He).
  - intros env singleton patient doctor dt e Hfeat. unfold score. by rewrite Hfeat.
Qed.

(** A predictor around [raising_model], asked about an empty dictionary. *)
Lemma predict_total_witness :
  let self := NoShowPredictor.mk (Some raising_model) in
  (NoShowPredictor.predict_try (H := example_runtime) self ∅
   = Raises (ValueError "Input contains NaN")
   /\ NoShowPredictor.model self = Some raising_model
   /\ Model.truthy raising_model = true
   /\ scorer raising_model
      = Some (fun _ => Raises (ValueError "Input contains NaN"))
   /\ NoShowPredictor.row ∅ NoShowPredictor.ordered_keys
      = Returns (replicate 7 0%float))
  /\ NoShowPredictor.predict (H := example_runtime) self ∅ = ZERO_PREDICTION.
Proof.
  cbn zeta. split; [by repeat split|].
  exact (proj1 (proj2 (proj2 (predict_total (H := example_runtime)
                                (NoShowPredictor.mk (Some raising_model)) ∅)))
           raising_model (fun _ => Raises (ValueError "Input contains NaN"))
           (replicate 7 0%float) (ValueError "Input contains NaN")
           eq_refl eq_refl eq_refl eq_refl eq_refl).
Defined.

(** * Further properties *)

(** ** The slot finder, further *)

(** An ascending list is determined by its members. *)
Lemma ascending_ext (l1 l2 : list Z) :
  ascending l1 -> ascending l2 -> (forall t, t ∈ l1 <-> t ∈ l2) -> l1 = l2.
Proof.
  unfold ascending. intros H1. revert l2.
  induction H1 as [|x l1 Hl1 IH Hx]; intros l2 H2 Hmem.
  - destruct l2 as [|y l2]; [done|].
    exfalso. eapply not_elem_of_nil. apply Hmem. by left.
  - destruct H2 as [|y l2 Hl2 Hy].
    { exfalso. eapply not_elem_of_nil. apply Hmem. by left. }
    rewrite Forall_forall in Hx, Hy.
    assert (x = y) as ->.
    { assert (Hxin : x ∈ y :: l2) by (apply Hmem; by left).
      assert (Hyin : y ∈ x :: l1) by (apply Hmem; by left).
      apply elem_of_cons in Hxin as [?|Hxin]; [done|].
      apply elem_of_cons in Hyin as [?|Hyin]; [done|].
      specialize (Hx _ Hyin). specialize (Hy _ Hxin). lia. }
    f_equal. apply IH; [done|]. intros t. split; intros Ht.
    + assert (Hin : t ∈ y :: l2) by (apply Hmem; by right).
      apply elem_of_cons in Hin as [->|?]; [|done].
      specialize (Hx _ Ht). lia.
    + assert (Hin : t ∈ y :: l1) by (apply Hmem; by right).
      apply elem_of_cons in Hin as [->|?]; [|done].
      specialize (Hy _ Ht). lia.
Qed.

(** X1: a doctor with no enabled availability row on the weekday of the
    date gets the empty list, whatever the fuel, the consultation length
    and the appointments. *)
Theorem find_available_slots_no_availability fuel session doctor_id date c :
  (forall w, ~ enabled_window session doctor_id date w) ->
  find_available_slots fuel session doctor_id date c = Some (Returns []).
Proof.
  intros Hnone. unfold find_available_slots.
  destruct (availability_query session doctor_id (Time.weekday date))
    as [|w rows] eqn:Hq; [done|].
  exfalso. apply (Hnone w). apply availability_query_spec.
  rewrite Hq. by left.
Qed.

Lemma find_available_slots_no_availability_witness :
  (forall w, ~ enabled_window clinic 1 (monday + 1) w)
  /\ find_available_slots 0 clinic 1 (monday + 1) 30 = Some (Returns []).
Proof.
  assert (Hnone : forall w, ~ enabled_window clinic 1 (monday + 1) w).
  { intros w (Hw & _ & Hday & _). cbn in Hw.
    apply list_elem_of_singleton in Hw as ->. vm_compute in Hday. discriminate. }
  split; [exact Hnone|].
  exact (find_available_slots_no_availability 0 clinic 1 (monday + 1) 30 Hnone).
Defined.

(** X2: the slots depend on the session only through the doctor's
    enabled windows of that weekday and the doctor's active appointments
    of that date: two sessions that agree on these give the same list.
    Rows of other doctors, of other days, disabled windows and
    appointments in a terminal status do not matter, nor does the order
    of the rows. *)
Theorem find_available_slots_frame fuel1 fuel2 s1 s2 doctor_id date c r1 r2 :
  same_day s1 s2 doctor_id date ->
  find_available_slots fuel1 s1 doctor_id date c = Some r1 ->
  find_available_slots fuel2 s2 doctor_id date c = Some r2 ->
  r1 = r2.
Proof.
  intros [Hw Ha] Hrun1 Hrun2.
  apply find_available_slots_sound in Hrun1, Hrun2.
  assert (Hrange : sums_in_range s1 doctor_id date c
                   <-> sums_in_range s2 doctor_id date c).
  { unfold sums_in_range.
    split; intros (Hnext & Hends & Hwalks); (split; [done|split]).
    - intros a Hact. apply Hends. by apply Ha.
    - intros w Hen. apply Hwalks. by apply Hw.
    - intros a Hact. apply Hends. by apply Ha.
    - intros w Hen. apply Hwalks. by apply Hw. }
  unfold slots_result in *. destruct r1 as [l1|e1], r2 as [l2|e2].
  - destruct Hrun1 as (_ & Hasc1 & Hmem1), Hrun2 as (_ & Hasc2 & Hmem2).
    f_equal. apply ascending_ext; [done..|].
    intros t. rewrite Hmem1, Hmem2. unfold free_slot.
    split; intros [[w [Hen Hwalk]] Hfree];
      (split; [exists w; split; [by apply Hw|done]|]);
      intros a Hact; apply Hfree; by apply Ha.
  - destruct Hrun1 as ([Hnone|Hin] & _), Hrun2 as (_ & [w Hen] & Hno).
    + destruct (Hnone w). by apply Hw.
    + destruct Hno. by apply Hrange.
  - destruct Hrun2 as ([Hnone|Hin] & _), Hrun1 as (_ & [w Hen] & Hno).
    + destruct (Hnone w). by apply Hw.
    + destruct Hno. by apply Hrange.
  - destruct Hrun1 as (-> & _), Hrun2 as (-> & _). done.
Qed.

Lemma find_available_slots_frame_witness :
  same_day clinic (clinic_with CANCELLED) 1 monday
  /\ find_available_slots 32 clinic 1 monday 30
     = Some (Returns (quarter_hours monday (Time.hm 9 0) 31))
  /\ find_available_slots 40 (clinic_with CANCELLED) 1 monday 30
     = Some (Returns (quarter_hours monday (Time.hm 9 0) 31))
  /\ Returns (quarter_hours monday (Time.hm 9 0) 31)
     = Returns (quarter_hours monday (Time.hm 9 0) 31).
Proof.
  assert (Hsame : same_day clinic (clinic_with CANCELLED) 1 monday).
  { split; [done|]. intros a. unfold active_that_day. cbn [appointments clinic_with clinic with_appointments].
    split.
    - intros (Ha & _). by apply elem_of_nil in Ha.
    - intros (Ha & _ & _ & Hst). apply list_elem_of_singleton in Ha as ->.
      cbn in Hst. destruct Hst; discriminate. }
  assert (E1 : find_available_slots 32 clinic 1 monday 30
               = Some (Returns (quarter_hours monday (Time.hm 9 0) 31)))
    by (vm_compute; reflexivity).
  assert (E2 : find_available_slots 40 (clinic_with CANCELLED) 1 monday 30
               = Some (Returns (quarter_hours monday (Time.hm 9 0) 31)))
    by (vm_compute; reflexivity).
  split; [exact Hsame|]. split; [exact E1|]. split; [exact E2|].
  exact (find_available_slots_frame 32 40 clinic (clinic_with CANCELLED) 1 monday
           30 _ _ Hsame E1 E2).
Defined.

(** The day of an instant contains it. *)
Lemma date_of_bounds (dt : Time.datetime) :
  Time.combine (Time.date_of dt) 0 <= dt < Time.combine (Time.date_of dt + 1) 0.
Proof.
  unfold Time.combine, Time.date_of.
  assert (Hday : Time.US_PER_DAY = 86400000000) by reflexivity.
  rewrite Hday. pose proof (Z.div_mod dt 86400000000).
  pose proof (Z.mod_pos_bound dt 86400000000). lia.
Qed.

(** X3: booking a slot takes it off the list.  After a booking of
    positive duration has succeeded, the start it was made for is not
    among the slots returned for its day and that doctor, whatever
    positive consultation length is asked for; a call that does not
    return a list has raised [OverflowError]. *)
Theorem booked_slot_not_offered `{Runtime} env world patient_id doctor_id
    hospital_id appointment_datetime duration_minutes reason
    appointment_id probability dt fuel c r :
  let booked :=
    book_appointment env world patient_id doctor_id hospital_id
      appointment_datetime duration_minutes reason in
  booked.2 = Booked appointment_id probability ->
  _normalize_datetime_input appointment_datetime = Returns dt ->
  duration_minutes > 0 ->
  c > 0 ->
  find_available_slots fuel (db booked.1) doctor_id (Time.date_of dt) c = Some r ->
  match r with
  | Returns slots => dt ∉ slots
  | Raises e => e = OverflowError
  end.
Proof.
  intros booked Hbooked Hdt Hdur Hc Hrun.
  destruct (book_appointment_booked env world patient_id doctor_id hospital_id
              appointment_datetime duration_minutes reason appointment_id
              probability Hbooked) as [dt' [Hdt' Hdb]].
  fold booked in Hdb. assert (dt' = dt) as -> by congruence.
  apply find_available_slots_sound in Hrun. unfold slots_result in Hrun.
  destruct r as [slots|e]; [|by destruct Hrun].
  destruct Hrun as (_ & _ & Hmem). intros Hin.
  apply Hmem in Hin as [_ Hfree].
  apply (Hfree (Appointment.mk appointment_id patient_id doctor_id hospital_id dt
                  duration_minutes SCHEDULED probability reason None None)).
  - unfold active_that_day. rewrite Hdb.
    cbn [appointments with_appointments Appointment.doctor_id
         Appointment.appointment_datetime Appointment.status].
    split; [|split; [done|split; [apply date_of_bounds|by left]]].
    apply elem_of_app. right. by left.
  - unfold overlap_test.
    cbn [Appointment.appointment_datetime Appointment.duration_minutes].
    unfold Time.minutes, Time.US_PER_MINUTE, Time.US_PER_SECOND. lia.
Qed.

Lemma booked_slot_not_offered_witness :
  let env := env_at (Time.combine monday 0) in
  let input := naive monday (Time.hm 11 0) in
  let dt := Time.combine monday (Time.hm 11 0) in
  let booked :=
    book_appointment (H := example_runtime) env (mkWorld clinic None) 11 1 1
      input 30 None in
  let r := Returns (quarter_hours monday (Time.hm 9 0) 7
                    ++ quarter_hours monday (Time.hm 11 30) 21) in
  (booked.2 = Booked 1 0x1.999999999999ap-4%float
   /\ _normalize_datetime_input (H := example_runtime) input = Returns dt
   /\ 30 > 0
   /\ 30 > 0
   /\ find_available_slots 32 (db booked.1) 1 (Time.date_of dt) 30 = Some r)
  /\ dt ∉ quarter_hours monday (Time.hm 9 0) 7
          ++ quarter_hours monday (Time.hm 11 30) 21.
Proof.
  cbn zeta.
  assert (Hb : (book_appointment (H := example_runtime)
                  (env_at (Time.combine monday 0)) (mkWorld clinic None) 11 1 1
                  (naive monday (Time.hm 11 0)) 30 None).2
               = Booked 1 0x1.999999999999ap-4%float)
    by (vm_compute; reflexivity).
  assert (Hdt : _normalize_datetime_input (H := example_runtime)
                  (naive monday (Time.hm 11 0))
                = Returns (Time.combine monday (Time.hm 11 0)))
    by (vm_compute; reflexivity).
  assert (Hrun : find_available_slots 32
                   (db (book_appointment (H := example_runtime)
                          (env_at (Time.combine monday 0)) (mkWorld clinic None)
                          11 1 1 (naive monday (Time.hm 11 0)) 30 None).1)
                   1 (Time.date_of (Time.combine monday (Time.hm 11 0))) 30
                 = Some (Returns (quarter_hours monday (Time.hm 9 0) 7
                                  ++ quarter_hours monday (Time.hm 11 30) 21)))
    by (vm_compute; reflexivity).
  split; [by repeat split|].
  exact (booked_slot_not_offered (H := example_runtime)
           (env_at (Time.combine monday 0)) (mkWorld clinic None) 11 1 1
           (naive monday (Time.hm 11 0)) 30 None 1 0x1.999999999999ap-4%float
           (Time.combine monday (Time.hm 11 0)) 32 30 _
           Hb Hdt eq_refl eq_refl Hrun).
Defined.

(** ** Cancellation, further *)

Lemma cancel_not_found now session appointment_id :
  list_find (fun a => Appointment.id a = appointment_id) (appointments session) = None ->
  cancel_appointment now session appointment_id
  = (session, CancelResult.mk false "Appointment not found").
Proof. intros Hnone. unfold cancel_appointment. by rewrite Hnone. Qed.

(** The three ways a cancellation goes. *)
Lemma cancel_appointment_cases now session appointment_id :
  (list_find (fun a => Appointment.id a = appointment_id) (appointments session) = None
   /\ cancel_appointment now session appointment_id
      = (session, CancelResult.mk false "Appointment not found"))
  \/ (exists i appt,
        found session appointment_id i appt
        /\ (Appointment.status appt = CANCELLED \/ Appointment.status appt = COMPLETED)
        /\ cancel_appointment now session appointment_id
           = (session, CancelResult.mk false "Cannot cancel this appointment"))
  \/ (exists i appt,
        found session appointment_id i appt
        /\ Appointment.status appt <> CANCELLED
        /\ Appointment.status appt <> COMPLETED
        /\ cancel_appointment now session appointment_id
           = (with_appointments session
                (<[i := Appointment.set_updated_at
                          (Appointment.set_status appt CANCELLED) now]>
                   (appointments session)),
              CancelResult.mk true "Appointment cancelled")).
Proof.
  destruct (list_find (fun a => Appointment.id a = appointment_id)
              (appointments session)) as [[i appt]|] eqn:Hfind.
  - right.
    destruct (decide (Appointment.status appt = CANCELLED)) as [Hc|Hc];
      [left; exists i, appt; split_and!;
         [done | by left | by apply (cancel_rejected now session appointment_id i appt); [|left]]|].
    destruct (decide (Appointment.status appt = COMPLETED)) as [Hd|Hd];
      [left; exists i, appt; split_and!;
         [done | by right | by apply (cancel_rejected now session appointment_id i appt); [|right]]|].
    right. exists i, appt. split_and!; [done..|].
    by apply (cancel_accepted now session appointment_id i appt).
  - left. split; [done|]. by apply cancel_not_found.
Qed.

(** X4: a cancellation succeeds exactly when the appointment exists and
    is neither CANCELLED nor COMPLETED, and a cancellation that does not
    succeed leaves the session as it was. *)
Theorem cancel_appointment_outcome now session appointment_id :
  let cancelled := cancel_appointment now session appointment_id in
  (CancelResult.success cancelled.2 = true <->
   exists i appt,
     found session appointment_id i appt
     /\ Appointment.status appt <> CANCELLED
     /\ Appointment.status appt <> COMPLETED)
  /\ (CancelResult.success cancelled.2 = false -> cancelled.1 = session).
Proof.
  cbn zeta.
  destruct (cancel_appointment_cases now session appointment_id)
    as [[Hnone ->] | [(i & appt & Hf & Hst & ->) | (i & appt & Hf & H1 & H2 & ->)]];
    cbn [fst snd CancelResult.success].
  - split; [|done]. split; [done|].
    intros (i & appt & Hf & _). unfold found in Hf. congruence.
  - split; [|done]. split; [done|].
    intros (i' & appt' & Hf' & H1 & H2). unfold found in *.
    assert (appt' = appt) as -> by congruence. destruct Hst; done.
  - split; [|done]. split; [|done]. intros _. by exists i, appt.
Qed.

(** What a cancellation keeps. *)
Lemma cancel_frame now session appointment_id :
  let session' := (cancel_appointment now session appointment_id).1 in
  same_registry session session'
  /\ length (appointments session') = length (appointments session)
  /\ forall j a',
       appointments session' !! j = Some a' ->
       exists a,
         appointments session !! j = Some a
         /\ same_but_status a a'
         /\ (a' = a
             \/ found session appointment_id j a
                /\ a' = Appointment.set_updated_at
                          (Appointment.set_status a CANCELLED) now).
Proof.
  cbn zeta.
  destruct (cancel_appointment_cases now session appointment_id)
    as [[Hnone ->] | [(i & appt & Hf & Hst & ->) | (i & appt & Hf & H1 & H2 & ->)]];
    cbn [fst snd].
  - split; [done|]. split; [done|]. intros j a' Hj. exists a'.
    split; [done|]. split; [done|by left].
  - split; [done|]. split; [done|]. intros j a' Hj. exists a'.
    split; [done|]. split; [done|by left].
  - cbn [appointments with_appointments]. split; [done|].
    split; [apply length_insert|]. intros j a' Hj.
    pose proof Hf as Hf'. apply list_find_Some in Hf' as (Hi & _).
    apply list_lookup_insert_Some in Hj as [(-> & <- & _) | (Hne & Hj)].
    + exists appt. split; [done|]. split; [done|]. right. by split.
    + exists a'. split; [done|]. split; [done|by left].
Qed.

(** X5: a cancellation touches one row at most, the one the lookup
    finds, and of that row only [status], which becomes CANCELLED, and
    [updated_at], which becomes the current time: the other tables, the
    number of appointments, and every other column of every appointment
    are kept. *)
Theorem cancel_appointment_frame now session appointment_id :
  let session' := (cancel_appointment now session appointment_id).1 in
  same_registry session session'
  /\ length (appointments session') = length (appointments session)
  /\ forall j a',
       appointments session' !! j = Some a' ->
       exists a,
         appointments session !! j = Some a
         /\ same_but_status a a'
         /\ (a' = a
             \/ found session appointment_id j a
                /\ a' = Appointment.set_updated_at
                          (Appointment.set_status a CANCELLED) now).
Proof. exact (cancel_frame now session appointment_id). Qed.

(** The uniqueness key of every row survives a cancellation. *)
Lemma cancel_keeps_uix_probe now session appointment_id doctor_id dt :
  uix_doctor_datetime
    (appointments (cancel_appointment now session appointment_id).1) doctor_id dt
  = uix_doctor_datetime (appointments session) doctor_id dt.
Proof.
  destruct (cancel_frame now session appointment_id)
    as (_ & Hlen & Hrows). cbn zeta in *.
  set (rows' := appointments (cancel_appointment now session appointment_id).1) in *.
  unfold uix_doctor_datetime.
  apply eq_true_iff_eq. rewrite !existsb_exists. split.
  - intros (a' & Hin & Hkey). apply list_elem_of_In, list_elem_of_lookup in Hin as [j Hj].
    destruct (Hrows j a' Hj) as (a & Ha & Hsame & _).
    exists a. split; [by eapply list_elem_of_In, list_elem_of_lookup_2|].
    destruct Hsame as (_ & _ & -> & _ & -> & _) in Hkey. done.
  - intros (a & Hin & Hkey). apply list_elem_of_In, list_elem_of_lookup in Hin as [j Hj].
    assert (is_Some (rows' !! j)) as [a' Hj'].
    { apply lookup_lt_is_Some. rewrite Hlen. by eapply lookup_lt_Some. }
    destruct (Hrows j a' Hj') as (a0 & Ha0 & Hsame & _).
    assert (a0 = a) as -> by congruence.
    exists a'. split; [by eapply list_elem_of_In, list_elem_of_lookup_2|].
    destruct Hsame as (_ & _ & Hd & _ & Ht & _). by rewrite Hd, Ht.
Qed.

(** X6: cancelling never takes a slot away: every slot offered before a
    call of [cancel_appointment] is offered after it, whether the call
    succeeded or not. *)
Theorem cancel_keeps_slots now session appointment_id fuel1 fuel2
    doctor_id date c l1 l2 :
  find_available_slots fuel1 session doctor_id date c = Some (Returns l1) ->
  find_available_slots fuel2 (cancel_appointment now session appointment_id).1
    doctor_id date c = Some (Returns l2) ->
  l1 ⊆ l2.
Proof.
  intros Hrun1 Hrun2.
  apply find_available_slots_sound in Hrun1 as (_ & _ & Hmem1).
  apply find_available_slots_sound in Hrun2 as (_ & _ & Hmem2).
  destruct (cancel_frame now session appointment_id)
    as ((_ & _ & _ & Hav) & _ & Hrows). cbn zeta in *.
  intros t Ht. apply Hmem2. apply Hmem1 in Ht as [[w [Hen Hwalk]] Hfree].
  split.
  - exists w. split; [|done]. unfold enabled_window in *. by rewrite Hav.
  - intros a' (Hin & Hdoc & Hday & Hst) Hov.
    apply list_elem_of_lookup in Hin as [j Hj].
    destruct (Hrows j a' Hj) as (a & Ha & Hsame & [-> | [_ ->]]).
    + apply (Hfree a); [|done].
      split; [by eapply list_elem_of_lookup_2|done].
    + cbn in Hst. destruct Hst; discriminate.
Qed.

Lemma cancel_keeps_slots_witness :
  let now := Time.combine monday (Time.hm 8 0) in
  let before := quarter_hours monday (Time.hm 9 0) 7
                ++ quarter_hours monday (Time.hm 11 30) 21 in
  let after := quarter_hours monday (Time.hm 9 0) 31 in
  (find_available_slots 32 (clinic_with SCHEDULED) 1 monday 30
   = Some (Returns before)
   /\ find_available_slots 32
        (cancel_appointment now (clinic_with SCHEDULED) 7).1 1 monday 30
      = Some (Returns after))
  /\ before ⊆ after.
Proof.
  cbn zeta.
  assert (E1 : find_available_slots 32 (clinic_with SCHEDULED) 1 monday 30
               = Some (Returns (quarter_hours monday (Time.hm 9 0) 7
                                ++ quarter_hours monday (Time.hm 11 30) 21)))
    by (vm_compute; reflexivity).
  assert (E2 : find_available_slots 32
                 (cancel_appointment (Time.combine monday (Time.hm 8 0))
                    (clinic_with SCHEDULED) 7).1 1 monday 30
               = Some (Returns (quarter_hours monday (Time.hm 9 0) 31)))
    by (vm_compute; reflexivity).
  split; [by split|].
  exact (cancel_keeps_slots _ _ _ _ _ _ _ _ _ _ E1 E2).
Defined.

(** ** Booking, further *)

Section BookingFurther.
Context `{Runtime}.
Variables (env : Env) (world : World).
Variables (patient_id doctor_id hospital_id : Z).
Variables (appointment_datetime : datetime_input).
Variables (duration_minutes : Z) (reason : option string).

Local Abbreviation booked :=
  (book_appointment env world patient_id doctor_id hospital_id
     appointment_datetime duration_minutes reason).

(** What a successful booking went through, and what it wrote. *)
Lemma book_appointment_booked_inv appointment_id probability :
  booked.2 = Booked appointment_id probability ->
  exists dt patient doctor hospital,
    _normalize_datetime_input appointment_datetime = Returns dt
    /\ bookable_instant env dt
    /\ resolved (db world) patient_id doctor_id hospital_id patient doctor hospital
    /\ uix_doctor_datetime (appointments (db world)) doctor_id dt = false
    /\ storage_fault env = None
    /\ (forall a, a ∈ appointments (db world) -> Appointment.id a <> appointment_id)
    /\ db booked.1 =
       with_appointments (db world)
         (appointments (db world) ++
          [Appointment.mk appointment_id patient_id doctor_id hospital_id dt
             duration_minutes SCHEDULED probability reason None None]).
Proof.
  unfold book_appointment, bookable_instant, resolved, MAX_BOOKING_DAYS_AHEAD.
  destruct (_normalize_datetime_input appointment_datetime) as [dt|]; [|done].
  repeat case_bool_decide; [done..|].
  destruct (patient_by_id (db world) patient_id) as [patient|],
    (doctor_by_id (db world) doctor_id) as [doctor|],
    (hospital_by_id (db world) hospital_id) as [hospital|]; try done.
  destruct (score _ _ _ _ _) as [s p].
  unfold flush_commit.
  cbn [Appointment.doctor_id Appointment.appointment_datetime].
  destruct (uix_doctor_datetime _ _ _) eqn:Huix; [done|].
  destruct (storage_fault env) as [[]|]; try done.
  cbn. intros [= <- <-].
  exists dt, patient, doctor, hospital.
  split_and!; first [done | lia | apply assigned_id_unused].
Qed.

(** X7: a booking succeeds exactly when the start normalises to an
    instant strictly after now and at most 90 days ahead, the patient,
    the doctor and the hospital exist, no row has the same doctor and
    start, and the storage does not fail.  Neither the availability
    windows nor an overlap with another appointment enter. *)
Theorem book_appointment_success_iff :
  (exists appointment_id probability, booked.2 = Booked appointment_id probability)
  <->
  (exists dt patient doctor hospital,
     _normalize_datetime_input appointment_datetime = Returns dt
     /\ bookable_instant env dt
     /\ resolved (db world) patient_id doctor_id hospital_id patient doctor hospital
     /\ uix_doctor_datetime (appointments (db world)) doctor_id dt = false
     /\ storage_fault env = None).
Proof.
  split.
  - intros (appointment_id & probability & Hb).
    apply book_appointment_booked_inv in Hb
      as (dt & patient & doctor & hospital & ? & ? & ? & ? & ? & _).
    by exists dt, patient, doctor, hospital.
  - intros (dt & patient & doctor & hospital & Hdt & Hin & Hres & Huix & Hfault).
    rewrite (book_appointment_valid env world patient_id doctor_id hospital_id
               appointment_datetime duration_minutes reason dt patient doctor
               hospital) by done.
    cbn zeta. unfold flush_commit.
    cbn [Appointment.doctor_id Appointment.appointment_datetime].
    rewrite Huix, Hfault. cbn. eauto.
Qed.

(** What a booking keeps and what it writes. *)
Lemma book_frame :
  same_registry (db world) (db booked.1)
  /\ match booked.2 with
     | Failed _ => db booked.1 = db world
     | Booked appointment_id probability =>
         exists dt,
           _normalize_datetime_input appointment_datetime = Returns dt
           /\ (forall a, a ∈ appointments (db world) ->
                 Appointment.id a <> appointment_id)
           /\ appointments (db booked.1) =
              appointments (db world) ++
              [Appointment.mk appointment_id patient_id doctor_id hospital_id dt
                 duration_minutes SCHEDULED probability reason None None]
     end.
Proof.
  destruct booked.2 as [appointment_id probability|message] eqn:Hb.
  - apply book_appointment_booked_inv in Hb
      as (dt & _ & _ & _ & Hdt & _ & _ & _ & _ & Hid & Hdb).
    rewrite Hdb. split; [done|]. by exists dt.
  - assert (Hdb : db booked.1 = db world).
    { revert Hb. unfold book_appointment.
      destruct (_normalize_datetime_input appointment_datetime) as [dt|]; [|done].
      repeat case_bool_decide; [done..|].
      destruct (patient_by_id (db world) patient_id),
        (doctor_by_id (db world) doctor_id),
        (hospital_by_id (db world) hospital_id); try done.
      destruct (score _ _ _ _ _) as [s p].
      destruct (flush_commit _ _ _) as [[session' i]|[]]; done. }
    by rewrite Hdb.
Qed.


(** X8: a booking writes nothing but its own row.  The other tables are
    kept; the appointments are kept when the call fails, and extended at
    the end by one SCHEDULED row when it succeeds: the row has the key
    the call returns, which no row had before, no [updated_at] and no
    [cancelled_at]. *)
Theorem book_appointment_frame :
  same_registry (db world) (db booked.1)
  /\ match booked.2 with
     | Failed _ => db booked.1 = db world
     | Booked appointment_id probability =>
         exists dt,
           _normalize_datetime_input appointment_datetime = Returns dt
           /\ (forall a, a ∈ appointments (db world) ->
                 Appointment.id a <> appointment_id)
           /\ appointments (db booked.1) =
              appointments (db world) ++
              [Appointment.mk appointment_id patient_id doctor_id hospital_id dt
                 duration_minutes SCHEDULED probability reason None None]
     end.
Proof. exact book_frame. Qed.

End BookingFurther.

Lemma uix_doctor_datetime_false rows doctor_id dt :
  uix_doctor_datetime rows doctor_id dt = false <->
  forall a, a ∈ rows ->
    (Appointment.doctor_id a, Appointment.appointment_datetime a) <> (doctor_id, dt).
Proof.
  unfold uix_doctor_datetime. rewrite <- not_true_iff_false, existsb_exists. split.
  - intros Hno a Hin [= Hd Ht]. apply Hno. exists a.
    split; [by apply list_elem_of_In|]. by rewrite !bool_decide_eq_true_2.
  - intros Hall (a & Hin & Hkey). apply list_elem_of_In in Hin.
    apply andb_true_iff in Hkey as [Hd Ht].
    apply bool_decide_eq_true in Hd, Ht. apply (Hall a Hin). congruence.
Qed.

(** X9: the two keys of the appointments table are invariants of the
    engine.  If no two rows share an [id] and no two rows share a doctor
    and a start, this is still so after any sequence of bookings and
    cancellations. *)
Theorem serve_all_keeps_keys `{Runtime} (requests : list request) (world : World) :
  unique_ids (appointments (db world)) ->
  unique_doctor_datetime (appointments (db world)) ->
  unique_ids (appointments (db (serve_all world requests)))
  /\ unique_doctor_datetime (appointments (db (serve_all world requests))).
Proof.
  unfold serve_all. revert world.
  induction requests as [|q requests IH]; intros world Hids Huix; [done|].
  cbn [foldl]. apply IH.
  - destruct q as [env pid did hid input dur reason | now appointment_id];
      cbn [serve db].
    + destruct (book_frame env world pid did hid input dur reason)
        as [_ Hframe].
      destruct (book_appointment env world pid did hid input dur reason).2
        as [appointment_id probability|message].
      * destruct Hframe as (dt & _ & Hfresh & ->).
        unfold unique_ids in *. rewrite map_app. cbn [map Appointment.id].
        apply NoDup_app. split; [done|]. split; [|apply NoDup_singleton].
        intros i Hin Hi. apply list_elem_of_singleton in Hi as ->.
        apply list_elem_of_In, in_map_iff in Hin as (a & Ha & Hin).
        apply list_elem_of_In in Hin. by apply (Hfresh a).
      * by rewrite Hframe.
    + destruct (cancel_frame now (db world) appointment_id)
        as (_ & Hlen & Hrows). cbn zeta in *.
      unfold unique_ids in *.
      replace (map Appointment.id
                 (appointments (cancel_appointment now (db world) appointment_id).1))
        with (map Appointment.id (appointments (db world))); [done|].
      apply list_eq. intros j. rewrite !list_lookup_fmap.
      destruct (appointments (cancel_appointment now (db world) appointment_id).1 !! j)
        as [a'|] eqn:Hj.
      * destruct (Hrows j a' Hj) as (a & Ha & (Hid & _) & _).
        rewrite Ha. cbn. by rewrite Hid.
      * apply lookup_ge_None in Hj. rewrite Hlen in Hj.
        apply lookup_ge_None in Hj. by rewrite Hj.
  - destruct q as [env pid did hid input dur reason | now appointment_id];
      cbn [serve db].
    + pose proof (book_frame env world pid did hid input dur reason)
        as [_ Hframe].
      destruct (book_appointment env world pid did hid input dur reason).2
        as [appointment_id probability|message] eqn:Hb.
      * apply book_appointment_booked_inv in Hb
          as (dt' & _ & _ & _ & Hdt' & _ & _ & Hfree & _).
        destruct Hframe as (dt & Hdt & _ & ->).
        assert (dt' = dt) as -> by congruence.
        unfold unique_doctor_datetime in *. rewrite map_app.
        cbn [map Appointment.doctor_id Appointment.appointment_datetime].
        apply NoDup_app. split; [done|]. split; [|apply NoDup_singleton].
        intros k Hin Hk. apply list_elem_of_singleton in Hk as ->.
        apply list_elem_of_In, in_map_iff in Hin as (a & Ha & Hin).
        apply list_elem_of_In in Hin.
        by apply (proj1 (uix_doctor_datetime_false _ _ _) Hfree a).
      * by rewrite Hframe.
    + destruct (cancel_frame now (db world) appointment_id)
        as (_ & Hlen & Hrows). cbn zeta in *.
      unfold unique_doctor_datetime in *.
      replace (map (fun a => (Appointment.doctor_id a, Appointment.appointment_datetime a))
                 (appointments (cancel_appointment now (db world) appointment_id).1))
        with (map (fun a => (Appointment.doctor_id a, Appointment.appointment_datetime a))
                (appointments (db world))); [done|].
      apply list_eq. intros j. rewrite !list_lookup_fmap.
      destruct (appointments (cancel_appointment now (db world) appointment_id).1 !! j)
        as [a'|] eqn:Hj.
      * destruct (Hrows j a' Hj) as (a & Ha & (_ & _ & Hd & _ & Ht & _) & _).
        rewrite Ha. cbn. by rewrite Hd, Ht.
      * apply lookup_ge_None in Hj. rewrite Hlen in Hj.
        apply lookup_ge_None in Hj. by rewrite Hj.
Qed.

Lemma serve_all_keeps_keys_witness :
  let requests :=
    [ BookRequest (env_at (Time.combine monday 0)) 11 1 1
        (naive monday (Time.hm 11 0)) 30 None;
      CancelRequest (Time.combine monday (Time.hm 8 0)) 1;
      BookRequest (env_at (Time.combine monday (Time.hm 9 0))) 11 1 1
        (naive monday (Time.hm 11 0)) 30 None ] in
  let world := mkWorld clinic None in
  (unique_ids (appointments (db world))
   /\ unique_doctor_datetime (appointments (db world)))
  /\ unique_ids
       (appointments (db (serve_all (H := example_runtime) world requests)))
  /\ unique_doctor_datetime
       (appointments (db (serve_all (H := example_runtime) world requests))).
Proof.
  cbn zeta.
  assert (Hids : unique_ids (appointments (db (mkWorld clinic None))))
    by apply NoDup_nil_2.
  assert (Huix : unique_doctor_datetime (appointments (db (mkWorld clinic None))))
    by apply NoDup_nil_2.
  split; [by split|].
  exact (serve_all_keeps_keys (H := example_runtime) _ (mkWorld clinic None)
           Hids Huix).
Defined.

(** X10: the key a booking returns is the key of the row it wrote.  A
    lookup by that key finds the new row, at the end of the table, and
    a cancellation by that key succeeds and leaves the row CANCELLED. *)
Theorem book_then_cancel `{Runtime} env world patient_id doctor_id hospital_id
    appointment_datetime duration_minutes reason appointment_id probability
    dt now :
  let booked :=
    book_appointment env world patient_id doctor_id hospital_id
      appointment_datetime duration_minutes reason in
  let row :=
    Appointment.mk appointment_id patient_id doctor_id hospital_id dt
      duration_minutes SCHEDULED probability reason None None in
  let cancelled := cancel_appointment now (db booked.1) appointment_id in
  booked.2 = Booked appointment_id probability ->
  _normalize_datetime_input appointment_datetime = Returns dt ->
  found (db booked.1) appointment_id (length (appointments (db world))) row
  /\ cancelled.2 = CancelResult.mk true "Appointment cancelled"
  /\ appointments cancelled.1 =
     appointments (db world) ++
     [Appointment.set_updated_at (Appointment.set_status row CANCELLED) now].
Proof.
  intros booked row cancelled Hb Hdt.
  apply book_appointment_booked_inv in Hb
    as (dt' & _ & _ & _ & Hdt' & _ & _ & _ & _ & Hid & Hdb).
  fold booked in Hdb. assert (dt' = dt) as -> by congruence. fold row in Hdb.
  assert (Hfound : found (db booked.1) appointment_id
                     (length (appointments (db world))) row).
  { unfold found. rewrite Hdb. cbn [appointments with_appointments].
    apply list_find_Some. split_and!.
    - by rewrite lookup_app_r, Nat.sub_diag.
    - done.
    - intros j a Hj Hlt Ha. rewrite lookup_app_l in Hj by done.
      apply list_elem_of_lookup_2 in Hj. by apply (Hid a). }
  split; [exact Hfound|].
  unfold cancelled.
  rewrite (cancel_accepted now (db booked.1) appointment_id _ row Hfound) by done.
  cbn [fst snd]. split; [done|]. rewrite Hdb.
  cbn [appointments with_appointments].
  rewrite insert_app_r_alt, Nat.sub_diag by done. done.
Qed.

Lemma book_then_cancel_witness :
  let env := env_at (Time.combine monday 0) in
  let input := naive monday (Time.hm 11 0) in
  let dt := Time.combine monday (Time.hm 11 0) in
  let now := Time.combine monday (Time.hm 8 0) in
  let booked :=
    book_appointment (H := example_runtime) env (mkWorld clinic None) 11 1 1
      input 30 None in
  let row :=
    Appointment.mk 1 11 1 1 dt 30 SCHEDULED 0x1.999999999999ap-4%float None
      None None in
  let cancelled := cancel_appointment now (db booked.1) 1 in
  (booked.2 = Booked 1 0x1.999999999999ap-4%float
   /\ _normalize_datetime_input (H := example_runtime) input = Returns dt)
  /\ found (db booked.1) 1 (length (appointments (db (mkWorld clinic None)))) row
  /\ cancelled.2 = CancelResult.mk true "Appointment cancelled"
  /\ appointments cancelled.1 =
     appointments (db (mkWorld clinic None)) ++
     [Appointment.set_updated_at (Appointment.set_status row CANCELLED) now].
Proof.
  cbn zeta.
  assert (Hb : (book_appointment (H := example_runtime)
                  (env_at (Time.combine monday 0)) (mkWorld clinic None) 11 1 1
                  (naive monday (Time.hm 11 0)) 30 None).2
               = Booked 1 0x1.999999999999ap-4%float)
    by (vm_compute; reflexivity).
  assert (Hdt : _normalize_datetime_input (H := example_runtime)
                  (naive monday (Time.hm 11 0))
                = Returns (Time.combine monday (Time.hm 11 0)))
    by (vm_compute; reflexivity).
  split; [by split|].
  exact (book_then_cancel (H := example_runtime)
           (env_at (Time.combine monday 0)) (mkWorld clinic None) 11 1 1
           (naive monday (Time.hm 11 0)) 30 None 1 0x1.999999999999ap-4%float
           (Time.combine monday (Time.hm 11 0))
           (Time.combine monday (Time.hm 8 0)) Hb Hdt).
Defined.

Lemma found_uix session appointment_id i appt :
  found session appointment_id i appt ->
  uix_doctor_datetime (appointments session) (Appointment.doctor_id appt)
    (Appointment.appointment_datetime appt) = true.
Proof.
  intros Hf. apply list_find_Some in Hf as (Hi & _).
  unfold uix_doctor_datetime. apply existsb_exists. exists appt.
  split; [by eapply list_elem_of_In, list_elem_of_lookup_2|].
  by rewrite !bool_decide_eq_true_2.
Qed.

(** X11: a cancellation does not free the doctor and start for a new
    booking.  Whatever became of an appointment, a later request for its
    doctor at its start that passes the validations is answered "Slot
    already booked" and writes nothing. *)
Theorem rebook_after_cancel_refused `{Runtime} now session appointment_id i appt
    env singleton patient_id hospital_id appointment_datetime duration_minutes
    reason patient doctor hospital :
  let session' := (cancel_appointment now session appointment_id).1 in
  let booked :=
    book_appointment env (mkWorld session' singleton) patient_id
      (Appointment.doctor_id appt) hospital_id appointment_datetime
      duration_minutes reason in
  found session appointment_id i appt ->
  _normalize_datetime_input appointment_datetime
  = Returns (Appointment.appointment_datetime appt) ->
  bookable_instant env (Appointment.appointment_datetime appt) ->
  resolved session patient_id (Appointment.doctor_id appt) hospital_id
    patient doctor hospital ->
  booked.2 = Failed "Slot already booked" /\ db booked.1 = session'.
Proof.
  intros session' booked Hf Hdt Hin (Hp & Hd & Hh).
  destruct (cancel_frame now session appointment_id)
    as ((Hhos & Hdoc & Hpat & _) & _). cbn zeta in *. fold session' in Hhos, Hdoc, Hpat.
  apply (book_unique_violation env (mkWorld session' singleton) patient_id
           (Appointment.doctor_id appt) hospital_id appointment_datetime
           duration_minutes reason (Appointment.appointment_datetime appt)
           patient doctor hospital); [done|done| |].
  - unfold resolved, patient_by_id, doctor_by_id, hospital_by_id in *.
    cbn [db]. by rewrite Hhos, Hdoc, Hpat.
  - cbn [db]. unfold session'. rewrite cancel_keeps_uix_probe.
    by eapply found_uix.
Qed.

Lemma rebook_after_cancel_refused_witness :
  let now := Time.combine monday (Time.hm 8 0) in
  let env := env_at (Time.combine monday (Time.hm 9 0)) in
  let input := naive monday (Time.hm 11 0) in
  let session' := (cancel_appointment now (clinic_with SCHEDULED) 7).1 in
  let booked :=
    book_appointment (H := example_runtime) env (mkWorld session' None) 11
      (Appointment.doctor_id (appointment_7 SCHEDULED)) 1 input 30 None in
  (found (clinic_with SCHEDULED) 7 0 (appointment_7 SCHEDULED)
   /\ _normalize_datetime_input (H := example_runtime) input
      = Returns (Appointment.appointment_datetime (appointment_7 SCHEDULED))
   /\ bookable_instant env (Appointment.appointment_datetime (appointment_7 SCHEDULED))
   /\ resolved (clinic_with SCHEDULED) 11
        (Appointment.doctor_id (appointment_7 SCHEDULED)) 1
        (Patient.mk 11 None) (Doctor.mk 1 (Some 1) (Some 30)) (Hospital.mk 1))
  /\ booked.2 = Failed "Slot already booked" /\ db booked.1 = session'.
Proof.
  cbn zeta.
  assert (Hf : found (clinic_with SCHEDULED) 7 0 (appointment_7 SCHEDULED))
    by (vm_compute; reflexivity).
  assert (Hdt : _normalize_datetime_input (H := example_runtime)
                  (naive monday (Time.hm 11 0))
                = Returns (Appointment.appointment_datetime (appointment_7 SCHEDULED)))
    by (vm_compute; reflexivity).
  assert (Hin : bookable_instant (env_at (Time.combine monday (Time.hm 9 0)))
                  (Appointment.appointment_datetime (appointment_7 SCHEDULED)))
    by (vm_compute; split; [reflexivity | discriminate]).
  assert (Hres : resolved (clinic_with SCHEDULED) 11
                   (Appointment.doctor_id (appointment_7 SCHEDULED)) 1
                   (Patient.mk 11 None) (Doctor.mk 1 (Some 1) (Some 30))
                   (Hospital.mk 1))
    by (vm_compute; repeat split; reflexivity).
  split; [by repeat split|].
  exact (rebook_after_cancel_refused (H := example_runtime)
           (Time.combine monday (Time.hm 8 0)) (clinic_with SCHEDULED) 7 0
           (appointment_7 SCHEDULED) (env_at (Time.combine monday (Time.hm 9 0)))
           None 11 1 (naive monday (Time.hm 11 0)) 30 None
           (Patient.mk 11 None) (Doctor.mk 1 (Some 1) (Some 30)) (Hospital.mk 1)
           Hf Hdt Hin Hres).
Defined.

(** ** A race for a slot *)

(** A request for a doctor and start that a row has is refused,
    whatever else it says, and nothing is written. *)
Lemma book_appointment_taken `{Runtime} env world patient_id doctor_id hospital_id
    appointment_datetime duration_minutes reason dt :
  _normalize_datetime_input appointment_datetime = Returns dt ->
  uix_doctor_datetime (appointments (db world)) doctor_id dt = true ->
  (exists message,
     (book_appointment env world patient_id doctor_id hospital_id
        appointment_datetime duration_minutes reason).2 = Failed message)
  /\ db (book_appointment env world patient_id doctor_id hospital_id
           appointment_datetime duration_minutes reason).1 = db world.
Proof.
  intros Hdt Huix.
  pose proof (book_frame env world patient_id doctor_id hospital_id
                appointment_datetime duration_minutes reason) as [_ Hframe].
  destruct (book_appointment env world patient_id doctor_id hospital_id
              appointment_datetime duration_minutes reason).2
    as [appointment_id probability|message] eqn:Hb.
  - apply book_appointment_booked_inv in Hb
      as (dt' & _ & _ & _ & Hdt' & _ & _ & Hfree & _).
    congruence.
  - split; [eauto|done].
Qed.

(** Rows stay: a doctor and start that a row has, a row still has after
    any request. *)
Lemma serve_keeps_uix `{Runtime} world q doctor_id dt :
  uix_doctor_datetime (appointments (db world)) doctor_id dt = true ->
  uix_doctor_datetime (appointments (db (serve world q))) doctor_id dt = true.
Proof.
  intros Huix.
  destruct q as [env pid did hid input dur reason | now appointment_id];
    cbn [serve db].
  - pose proof (book_frame env world pid did hid input dur reason) as [_ Hframe].
    destruct (book_appointment env world pid did hid input dur reason).2
      as [appointment_id probability|message].
    + destruct Hframe as (dt' & _ & _ & ->).
      unfold uix_doctor_datetime in *. by rewrite existsb_app, Huix.
    + by rewrite Hframe.
  - by rewrite cancel_keeps_uix_probe.
Qed.

Lemma serve_all_keeps_uix `{Runtime} requests world doctor_id dt :
  uix_doctor_datetime (appointments (db world)) doctor_id dt = true ->
  uix_doctor_datetime (appointments (db (serve_all world requests))) doctor_id dt
  = true.
Proof.
  unfold serve_all. revert world.
  induction requests as [|q requests IH]; intros world Huix; [done|].
  cbn [foldl]. apply IH. by apply serve_keeps_uix.
Qed.

(** C1 fails on the code where the slot was held by an appointment that
    has been cancelled.  The slot is free, and [find_available_slots]
    offers it; but the uniqueness constraint does not look at the
    status and a cancellation keeps the row, so every call for the slot
    is refused, in a race of two and after any sequence of other
    requests, whatever the order: none succeeds. *)
Theorem book_appointment_free_slot_refused :
  let session := clinic_with CANCELLED in
  let input := naive monday (Time.hm 11 0) in
  find_available_slots 32 session 1 monday 30
  = Some (Returns (quarter_hours monday (Time.hm 9 0) 31))
  /\ Time.combine monday (Time.hm 11 0) ∈ quarter_hours monday (Time.hm 9 0) 31
  /\ (let env := env_at (Time.combine monday 0) in
      let first_call :=
        book_appointment (H := example_runtime) env (mkWorld session None)
          11 1 1 input 30 None in
      let second_call :=
        book_appointment (H := example_runtime) env first_call.1
          11 1 1 input 45 None in
      first_call.2 = Failed "Slot already booked"
      /\ second_call.2 = Failed "Slot already booked"
      /\ db second_call.1 = session)
  /\ forall (R : Runtime) singleton (requests : list request) env
        patient_id hospital_id duration_minutes reason,
       let world := serve_all (H := R) (mkWorld session singleton) requests in
       let booked :=
         book_appointment (H := R) env world patient_id 1 hospital_id input
           duration_minutes reason in
       (exists message, booked.2 = Failed message) /\ db booked.1 = db world.
Proof.
  cbn zeta. split_and!.
  - vm_compute. reflexivity.
  - apply list_elem_of_In, in_map_iff. exists 8%nat.
    split; [vm_compute; reflexivity | apply in_seq; lia].
  - vm_compute. reflexivity.
  - vm_compute. reflexivity.
  - vm_compute. reflexivity.
  - intros R singleton requests env patient_id hospital_id duration_minutes reason.
    apply (book_appointment_taken (H := R) env _ patient_id 1 hospital_id
             (naive monday (Time.hm 11 0)) duration_minutes reason
             (Time.combine monday (Time.hm 11 0))).
    + vm_compute. reflexivity.
    + apply serve_all_keeps_uix. vm_compute. reflexivity.
Qed.

(** ** The predictor, further *)

Lemma row_ext (f1 f2 : gmap string pyobj) (keys : list string) :
  (forall k, k ∈ keys ->
     default (Number 0%float) (f1 !! k) = default (Number 0%float) (f2 !! k)) ->
  NoShowPredictor.row f1 keys = NoShowPredictor.row f2 keys.
Proof.
  induction keys as [|k keys IH]; intros Hagree; [done|].
  cbn [NoShowPredictor.row].
  rewrite (Hagree k) by (by left).
  rewrite IH; [done|]. intros k' Hk'. apply Hagree. by right.
Qed.

(** X12: a prediction depends on the dictionary only through the seven
    ordered keys, a missing key counting as 0.0: two dictionaries that
    agree on these, whatever other keys they hold, get the same
    prediction from the same predictor. *)
Theorem predict_reads_ordered_keys `{Runtime} (self : NoShowPredictor.t)
    (f1 f2 : gmap string pyobj) :
  (forall k, k ∈ NoShowPredictor.ordered_keys ->
     default (Number 0%float) (f1 !! k) = default (Number 0%float) (f2 !! k)) ->
  NoShowPredictor.predict self f1 = NoShowPredictor.predict self f2.
Proof.
  intros Hagree. unfold NoShowPredictor.predict, NoShowPredictor.predict_try.
  by rewrite (row_ext f1 f2 _ Hagree).
Qed.

Lemma predict_reads_ordered_keys_witness :
  let f1 : gmap string pyobj := {[ "lead_time_days" := Number 0%float ]} in
  let f2 : gmap string pyobj := {[ "patient_id" := Opaque (TypeError "not a number") ]} in
  (forall k, k ∈ NoShowPredictor.ordered_keys ->
     default (Number 0%float) (f1 !! k) = default (Number 0%float) (f2 !! k))
  /\ NoShowPredictor.predict (H := example_runtime)
       (NoShowPredictor.mk (Some _create_dummy_model)) f1
     = NoShowPredictor.predict (H := example_runtime)
         (NoShowPredictor.mk (Some _create_dummy_model)) f2.
Proof.
  cbn zeta.
  assert (Hagree : forall k, k ∈ NoShowPredictor.ordered_keys ->
            default (Number 0%float)
              (({[ "lead_time_days" := Number 0%float ]} : gmap string pyobj) !! k)
            = default (Number 0%float)
                (({[ "patient_id" := Opaque (TypeError "not a number") ]}
                  : gmap string pyobj) !! k)).
  { intros k Hk. unfold NoShowPredictor.ordered_keys in Hk.
    repeat (apply elem_of_cons in Hk as [->|Hk]; [reflexivity|]).
    by apply elem_of_nil in Hk. }
  split; [exact Hagree|].
  exact (predict_reads_ordered_keys (H := example_runtime) _ _ _ Hagree).
Defined.

(** X13: without a usable model, that is with none, with a falsy one or
    with one that has neither [predict_proba] nor [predict], every
    dictionary whose seven values convert to floats gets the fallback
    prediction: probability 0.1 rounded, label 0. *)
Theorem predict_fallback `{Runtime} (self : NoShowPredictor.t)
    (features : gmap string pyobj) (r : list float) :
  unusable (NoShowPredictor.model self) ->
  NoShowPredictor.row features NoShowPredictor.ordered_keys = Returns r ->
  NoShowPredictor.predict self features = FALLBACK_PREDICTION.
Proof.
  intros Hun Hrow. unfold NoShowPredictor.predict, NoShowPredictor.predict_try.
  rewrite Hrow. cbn. unfold unusable, scorer in Hun.
  destruct (NoShowPredictor.model self) as [m|]; [|done].
  destruct (Model.truthy m); [|done].
  destruct Hun as [?|Hs]; [done|].
  destruct (Model.predict_proba m); [done|]. by rewrite Hs.
Qed.

Lemma predict_fallback_witness :
  (unusable (NoShowPredictor.model (NoShowPredictor.mk None))
   /\ NoShowPredictor.row ∅ NoShowPredictor.ordered_keys
      = Returns (replicate 7 0%float))
  /\ NoShowPredictor.predict (H := example_runtime) (NoShowPredictor.mk None) ∅
     = FALLBACK_PREDICTION (H := example_runtime).
Proof.
  split; [by split|].
  exact (predict_fallback (H := example_runtime) (NoShowPredictor.mk None) ∅
           (replicate 7 0%float) I eq_refl).
Defined.

(** After [load_model] the singleton holds the returned predictor. *)
Lemma load_model_singleton (file file' : ModelFile)
    (singleton : option NoShowPredictor.t) :
  let first_call := load_model file singleton in
  first_call.1 = Some first_call.2
  /\ load_model file' first_call.1 = first_call
  /\ (forall predictor, singleton = Some predictor -> first_call.2 = predictor).
Proof.
  cbn zeta. unfold load_model.
  destruct singleton as [p|]; cbn; [by split_and!; [| |intros ? [= <-]]|].
  split_and!; [done|done|done].
Qed.

(** X14: the predictor is built once.  Whatever the singleton and the
    file, after [load_model] the singleton holds the predictor that was
    returned, and a later call returns that same predictor and leaves
    the singleton alone, whatever the file has become. *)
Theorem load_model_once (file file' : ModelFile)
    (singleton : option NoShowPredictor.t) :
  let first_call := load_model file singleton in
  first_call.1 = Some first_call.2
  /\ load_model file' first_call.1 = first_call
  /\ (forall predictor, singleton = Some predictor -> first_call.2 = predictor).
Proof. apply load_model_singleton. Qed.

(** The dummy predictor of a missing or unreadable model file. *)
Lemma load_model_fallback `{Runtime} (file : ModelFile)
    (features : gmap string pyobj) (r : list float) :
  (exists_ file = false \/ exists e, pickle_load file = Raises e) ->
  NoShowPredictor.row features NoShowPredictor.ordered_keys = Returns r ->
  let predictor := (load_model file None).2 in
  predictor = NoShowPredictor.mk (Some _create_dummy_model)
  /\ NoShowPredictor.predict predictor features = FALLBACK_PREDICTION.
Proof.
  intros Hfile Hrow. cbn zeta.
  assert (Hp : (load_model file None).2 = NoShowPredictor.mk (Some _create_dummy_model)).
  { unfold load_model. cbn.
    destruct Hfile as [-> | [e He]]; [done|].
    destruct (exists_ file); cbn; [by rewrite He|done]. }
  split; [exact Hp|]. rewrite Hp.
  unfold NoShowPredictor.predict, NoShowPredictor.predict_try.
  rewrite Hrow. reflexivity.
Qed.

(** X15: when no predictor exists yet and the model file is missing or
    does not unpickle, [load_model] wraps the dummy model, and the dummy
    predictor answers every dictionary whose seven values convert with
    probability 0.1 rounded and label 0. *)
Theorem load_model_dummy `{Runtime} (file : ModelFile)
    (features : gmap string pyobj) (r : list float) :
  (exists_ file = false \/ exists e, pickle_load file = Raises e) ->
  NoShowPredictor.row features NoShowPredictor.ordered_keys = Returns r ->
  let predictor := (load_model file None).2 in
  predictor = NoShowPredictor.mk (Some _create_dummy_model)
  /\ NoShowPredictor.predict predictor features = FALLBACK_PREDICTION.
Proof. apply load_model_fallback. Qed.

Lemma load_model_dummy_witness :
  ((exists_ no_model_file = false
    \/ exists e, pickle_load no_model_file = Raises e)
   /\ NoShowPredictor.row ∅ NoShowPredictor.ordered_keys
      = Returns (replicate 7 0%float))
  /\ (load_model no_model_file None).2
     = NoShowPredictor.mk (Some _create_dummy_model)
  /\ NoShowPredictor.predict (H := example_runtime)
       (load_model no_model_file None).2 ∅
     = FALLBACK_PREDICTION (H := example_runtime).
Proof.
  split; [split; [by left|done]|].
  exact (load_model_dummy (H := example_runtime) no_model_file ∅
           (replicate 7 0%float) (or_introl eq_refl) eq_refl).
Defined.

(** The two outcomes of [build_features]. *)
Lemma build_features_cases `{Runtime} (now : Time.datetime) (patient : Patient.t)
    (doctor : Doctor.t) (appointment_dt : Time.datetime) :
  match Doctor.consultation_duration doctor with
  | None => exists e, build_features now patient doctor appointment_dt = Raises e
  | Some n =>
      exists features,
        build_features now patient doctor appointment_dt = Returns features
        /\ dom features = list_to_set NoShowPredictor.ordered_keys
        /\ NoShowPredictor.row features NoShowPredictor.ordered_keys
           = Returns (feature_row now n appointment_dt)
  end.
Proof.
  unfold build_features.
  destruct (Doctor.consultation_duration doctor) as [n|]; cbn; [|eauto].
  eexists. split; [reflexivity|]. split.
  - rewrite !dom_insert_L, dom_empty_L. unfold NoShowPredictor.ordered_keys.
    cbn [list_to_set]. set_solver.
  - reflexivity.
Qed.

(** X16: [build_features] fails exactly on a doctor without a
    consultation duration; otherwise the dictionary it returns holds the
    seven ordered keys and no other, and [predict] reads from it the row
    past no-shows 0, lead time in days, time-of-day bucket, weekday, no
    chronic condition, the doctor's consultation duration, recent
    no-shows 0, in this order. *)
Theorem build_features_row `{Runtime} (now : Time.datetime) (patient : Patient.t)
    (doctor : Doctor.t) (appointment_dt : Time.datetime) :
  match Doctor.consultation_duration doctor with
  | None => exists e, build_features now patient doctor appointment_dt = Raises e
  | Some n =>
      exists features,
        build_features now patient doctor appointment_dt = Returns features
        /\ dom features = list_to_set NoShowPredictor.ordered_keys
        /\ NoShowPredictor.row features NoShowPredictor.ordered_keys
           = Returns (feature_row now n appointment_dt)
  end.
Proof. apply build_features_cases. Qed.

(** ** Scoring and normalisation in a booking *)

(** X17: in a process that has no predictor yet and finds no model file,
    or one that does not unpickle, a valid booking for a doctor with a
    consultation duration is scored by the dummy model: it is stored and
    reported with probability 0.1 rounded, and the dummy predictor is
    the singleton afterwards. *)
Theorem book_appointment_without_model `{Runtime} env world patient_id doctor_id
    hospital_id appointment_datetime duration_minutes reason dt patient doctor
    hospital n :
  let booked :=
    book_appointment env world patient_id doctor_id hospital_id
      appointment_datetime duration_minutes reason in
  _normalize_datetime_input appointment_datetime = Returns dt ->
  bookable_instant env dt ->
  resolved (db world) patient_id doctor_id hospital_id patient doctor hospital ->
  uix_doctor_datetime (appointments (db world)) doctor_id dt = false ->
  storage_fault env = None ->
  Doctor.consultation_duration doctor = Some n ->
  _MODEL_SINGLETON world = None ->
  (exists_ (model_file env) = false
   \/ exists e, pickle_load (model_file env) = Raises e) ->
  (exists appointment_id,
     booked.2 = Booked appointment_id (round4 0x1.999999999999ap-4%float))
  /\ _MODEL_SINGLETON booked.1 = Some (NoShowPredictor.mk (Some _create_dummy_model)).
Proof.
  intros booked Hdt Hin Hres Huix Hfault Hn Hs Hfile. unfold booked.
  rewrite (book_appointment_valid env world patient_id doctor_id hospital_id
             appointment_datetime duration_minutes reason dt patient doctor
             hospital) by done.
  pose proof (build_features_cases (features_now env) patient doctor dt) as Hbuild.
  rewrite Hn in Hbuild. destruct Hbuild as (features & Hf & _ & Hrow).
  destruct (load_model_fallback (model_file env) features _ Hfile Hrow) as [Hp Hpred].
  cbn zeta in Hp, Hpred.
  assert (Hscore : score env (_MODEL_SINGLETON world) patient doctor dt
                   = (Some (NoShowPredictor.mk (Some _create_dummy_model)),
                      round4 0x1.999999999999ap-4%float)).
  { unfold score. rewrite Hf, Hs. unfold get_predictor.
    destruct (load_model (model_file env) None) as [s p] eqn:Hload.
    cbn [snd] in Hp, Hpred. subst p. rewrite Hpred. cbn.
    pose proof (load_model_singleton (model_file env) (model_file env) None) as [Hone _].
    cbn zeta in Hone. rewrite Hload in Hone. cbn in Hone. by rewrite Hone. }
  rewrite Hscore. cbn zeta. unfold flush_commit.
  cbn [Appointment.doctor_id Appointment.appointment_datetime fst snd].
  rewrite Huix, Hfault. cbn [fst snd _MODEL_SINGLETON]. split; [eauto|done].
Qed.

Lemma book_appointment_without_model_witness :
  let env := env_at (Time.combine monday 0) in
  let world := mkWorld clinic None in
  let dt := Time.combine monday (Time.hm 11 0) in
  let booked :=
    book_appointment (H := example_runtime) env world 11 1 1
      (naive monday (Time.hm 11 0)) 30 None in
  (_normalize_datetime_input (H := example_runtime) (naive monday (Time.hm 11 0))
   = Returns dt
   /\ bookable_instant env dt
   /\ resolved (db world) 11 1 1 (Patient.mk 11 None)
        (Doctor.mk 1 (Some 1) (Some 30)) (Hospital.mk 1)
   /\ uix_doctor_datetime (appointments (db world)) 1 dt = false
   /\ storage_fault env = None
   /\ Doctor.consultation_duration (Doctor.mk 1 (Some 1) (Some 30)) = Some 30
   /\ _MODEL_SINGLETON world = None
   /\ (exists_ (model_file env) = false
       \/ exists e, pickle_load (model_file env) = Raises e))
  /\ (exists appointment_id,
        booked.2 = Booked appointment_id 0x1.999999999999ap-4%float)
  /\ _MODEL_SINGLETON booked.1 = Some (NoShowPredictor.mk (Some _create_dummy_model)).
Proof.
  cbn zeta.
  assert (Hdt : _normalize_datetime_input (H := example_runtime)
                  (naive monday (Time.hm 11 0))
                = Returns (Time.combine monday (Time.hm 11 0)))
    by (vm_compute; reflexivity).
  assert (Hin : bookable_instant (env_at (Time.combine monday 0))
                  (Time.combine monday (Time.hm 11 0)))
    by (vm_compute; split; [reflexivity | discriminate]).
  assert (Hres : resolved clinic 11 1 1 (Patient.mk 11 None)
                   (Doctor.mk 1 (Some 1) (Some 30)) (Hospital.mk 1))
    by (vm_compute; repeat split; reflexivity).
  split; [split_and!; try done; by left|].
  exact (book_appointment_without_model (H := example_runtime)
           (env_at (Time.combine monday 0)) (mkWorld clinic None) 11 1 1
           (naive monday (Time.hm 11 0)) 30 None
           (Time.combine monday (Time.hm 11 0)) (Patient.mk 11 None)
           (Doctor.mk 1 (Some 1) (Some 30)) (Hospital.mk 1) 30
           Hdt Hin Hres eq_refl eq_refl eq_refl eq_refl (or_introl eq_refl)).
Defined.





(** ** The routes of [patient_routes.py] *)

Lemma List_filter_nil {A} (f : A -> bool) (l : list A) :
  List.filter f l = [] <-> forall x, x ∈ l -> f x = false.
Proof.
  induction l as [|a l IH]; cbn.
  - split; [|done]. intros _ x Hx. by apply elem_of_nil in Hx.
  - destruct (f a) eqn:Hfa.
    + split; [done|]. intros Hall. specialize (Hall a (list_elem_of_here _ _)).
      congruence.
    + rewrite IH. split.
      * intros Hall x Hx. apply elem_of_cons in Hx as [->|Hx]; auto.
      * intros Hall x Hx. apply Hall. by right.
Qed.

(** X19: [validate_required_fields] accepts exactly the dictionaries in
    which every required field is present and is not null; it refuses
    what is not a dictionary. *)
Theorem validate_required_fields_valid (data : option (gmap string json))
    (required_fields : list string) :
  validate_required_fields data required_fields = Valid
  <->
  exists d,
    data = Some d
    /\ forall f, f ∈ required_fields -> exists v, d !! f = Some v /\ v <> JNull.
Proof.
  unfold validate_required_fields. destruct data as [d|].
  - destruct (List.filter (is_missing d) required_fields) as [|m ms] eqn:Hm.
    + split; [intros _|done]. exists d. split; [done|].
      intros f Hf. apply (proj1 (List_filter_nil _ _) Hm) in Hf.
      unfold is_missing in Hf. destruct (d !! f) as [[]|]; try done; eauto.
    + split; [done|]. intros (d' & [= <-] & Hall). exfalso.
      assert (Hin : m ∈ List.filter (is_missing d) required_fields)
        by (rewrite Hm; by left).
      apply list_elem_of_In, filter_In in Hin as [Hin Hmiss].
      apply list_elem_of_In in Hin.
      destruct (Hall m Hin) as (v & Hv & Hnn).
      unfold is_missing in Hmiss. rewrite Hv in Hmiss. by destruct v.
  - split; [done|]. by intros (d & [=] & _).
Qed.

Section Routes.
Context `{Runtime} `{Strptime} `{Coercions}.
Variables (env : Env) (world : World).

(** X20: without a start the route books nothing.  When the payload has
    no [appointment_datetime], or a null or otherwise falsy one, the
    answer is a failure with status 400 or 500 and the process is as it
    was, whatever [preferred_date] says. *)
Theorem book_route_needs_start (get_json : outcome body) :
  (forall d v, get_json = Returns (Object d) ->
     get d "appointment_datetime" = Some v -> truthy v = false) ->
  let answered := book_patient_appointment env world get_json in
  answered.1 = world
  /\ Response.success answered.2 = false
  /\ (Response.status answered.2 = 400 \/ Response.status answered.2 = 500).
Proof.
  intros Hno. cbn zeta. unfold book_patient_appointment.
  destruct get_json as [b|e]; [|by split_and!; [| |right]].
  destruct (validate_required_fields (or_empty b) _) as [|error];
    [|by split_and!; [| |left]].
  destruct (or_empty b) as [d|] eqn:Hd; [|by split_and!; [| |left]].
  destruct (_ ← py_int _; _) as [[[patient_id doctor_id] hospital_id]|e];
    [|by split_and!; [| |right]].
  assert (Hpref :
    forall duration_minutes reason,
      let call value :=
        let '(world', result) :=
          book_appointment env world patient_id doctor_id hospital_id value
            duration_minutes reason in
        match result with
        | Failed message => (world', json_response false None message 400)
        | Booked _ _ => (world', json_response true None "Appointment booked" 201)
        end in
      forall out,
        out = match get d "preferred_date" with
              | Some v =>
                  if truthy v then
                    match strptime_ymd_json v with
                    | Returns _ => call InOther
                    | Raises _ =>
                        (world, json_response false None
                                  "Invalid preferred_date format" 400)
                    end
                  else call InNone
              | None => call InNone
              end ->
        out.1 = world /\ Response.success out.2 = false
        /\ (Response.status out.2 = 400 \/ Response.status out.2 = 500)).
  { intros duration_minutes reason call out ->. unfold call.
    destruct (get d "preferred_date") as [v|]; [destruct (truthy v)|];
      [destruct (strptime_ymd_json v)|..]; by split_and!; [| |left]. }
  destruct (get d "appointment_datetime") as [v|] eqn:Hv.
  - assert (Hfalsy : truthy v = false).
    { destruct b as [|d'|[]]; cbn in Hd; simplify_eq;
        first [by eapply Hno | unfold get in Hv; by rewrite lookup_empty in Hv]. }
    rewrite Hfalsy. by eapply Hpref.
  - by eapply Hpref.
Qed.

(** X21: the preferred date cannot be booked.  A payload with the three
    ids, no [appointment_datetime] and a [preferred_date] that parses is
    answered 400 "Unsupported datetime input type": the route hands the
    service a date, and the service takes datetimes and strings only. *)
Theorem book_route_preferred_date (d : gmap string json) (s : string)
    (date : Time.date) (patient_id doctor_id hospital_id : Z) :
  validate_required_fields (Some d) ["patient_id"; "doctor_id"; "hospital_id"]
  = Valid ->
  py_int (default JNull (d !! "patient_id")) = Returns patient_id ->
  py_int (default JNull (d !! "doctor_id")) = Returns doctor_id ->
  py_int (default JNull (d !! "hospital_id")) = Returns hospital_id ->
  get d "appointment_datetime" = None ->
  d !! "preferred_date" = Some (JStr s) ->
  s <> "" ->
  strptime_ymd s = Returns date ->
  book_patient_appointment env world (Returns (Object d))
  = (world, Response.mk false ∅ "Unsupported datetime input type" 400).
Proof.
  intros Hvalid Hp Hd Hh Hstart Hpref Hs Hdate.
  unfold book_patient_appointment. cbn [or_empty].
  rewrite Hvalid, Hp, Hd, Hh. cbn [mbind outcome_bind].
  rewrite Hstart. unfold get at 1. rewrite Hpref.
  cbn [truthy strptime_ymd_json]. rewrite Hdate.
  apply String.eqb_neq in Hs. by rewrite Hs.
Qed.

(** A branch of the route that refuses: status 400 or 500, nothing written. *)
Local Ltac refused_answer :=
  cbn; split; [done|split; [first [by left | by right]|done]].

(** X22: what the route answers.  A success has status 201, the message
    "Appointment booked" and an empty [data]: neither the key of the
    appointment nor its probability is returned; it stands for a booking
    the service made from the parsed [appointment_datetime].  A failure
    has status 400 or 500 and leaves the database as it was. *)
Theorem book_route_answer (get_json : outcome body) :
  let answered := book_patient_appointment env world get_json in
  Response.data answered.2 = ∅
  /\ (if Response.success answered.2
      then Response.status answered.2 = 201
           /\ Response.message answered.2 = "Appointment booked"
           /\ exists patient_id doctor_id hospital_id start duration_minutes
                reason appointment_id probability,
                book_appointment env world patient_id doctor_id hospital_id
                  (InDatetime start) duration_minutes reason
                = (answered.1, Booked appointment_id probability)
      else (Response.status answered.2 = 400 \/ Response.status answered.2 = 500)
           /\ db answered.1 = db world).
Proof.
  cbn zeta. unfold book_patient_appointment.
  destruct get_json as [b|e]; [|refused_answer].
  destruct (validate_required_fields (or_empty b) _) as [|error];
    [|refused_answer].
  destruct (or_empty b) as [d|] eqn:Hd; [|refused_answer].
  destruct (_ ← py_int _; _) as [[[patient_id doctor_id] hospital_id]|e];
    [|refused_answer].
  set (duration_minutes := match d !! "duration_minutes" with
                           | Some v => as_integer v | None => 30 end).
  set (reason := v ← get d "reason"; as_text v).
  assert (Hcall : forall value,
            (forall start, value <> InDatetime start) ->
            book_appointment env world patient_id doctor_id hospital_id value
              duration_minutes reason
            = (world, Failed (match value with
                              | InNone => "appointment_datetime is required"
                              | _ => "Unsupported datetime input type"
                              end)) ->
            let out :=
              (let '(world', result) :=
                 book_appointment env world patient_id doctor_id hospital_id
                   value duration_minutes reason in
               match result with
               | Failed message => (world', json_response false None message 400)
               | Booked _ _ =>
                   (world', json_response true None "Appointment booked" 201)
               end) in
            Response.data out.2 = ∅
            /\ (if Response.success out.2
                then Response.status out.2 = 201
                     /\ Response.message out.2 = "Appointment booked"
                     /\ exists patient_id doctor_id hospital_id start
                          duration_minutes reason appointment_id probability,
                          book_appointment env world patient_id doctor_id
                            hospital_id (InDatetime start) duration_minutes reason
                          = (out.1, Booked appointment_id probability)
                else (Response.status out.2 = 400 \/ Response.status out.2 = 500)
                     /\ db out.1 = db world)).
  { intros value _ ->. refused_answer. }
  assert (Hpref :
    let out :=
      match get d "preferred_date" with
      | Some v =>
          if truthy v then
            match strptime_ymd_json v with
            | Returns _ =>
                (let '(world', result) :=
                   book_appointment env world patient_id doctor_id hospital_id
                     InOther duration_minutes reason in
                 match result with
                 | Failed message => (world', json_response false None message 400)
                 | Booked _ _ =>
                     (world', json_response true None "Appointment booked" 201)
                 end)
            | Raises _ =>
                (world, json_response false None "Invalid preferred_date format" 400)
            end
          else
            (let '(world', result) :=
               book_appointment env world patient_id doctor_id hospital_id
                 InNone duration_minutes reason in
             match result with
             | Failed message => (world', json_response false None message 400)
             | Booked _ _ =>
                 (world', json_response true None "Appointment booked" 201)
             end)
      | None =>
          (let '(world', result) :=
             book_appointment env world patient_id doctor_id hospital_id
               InNone duration_minutes reason in
           match result with
           | Failed message => (world', json_response false None message 400)
           | Booked _ _ =>
               (world', json_response true None "Appointment booked" 201)
           end)
      end in
    Response.data out.2 = ∅
    /\ (if Response.success out.2
        then Response.status out.2 = 201
             /\ Response.message out.2 = "Appointment booked"
             /\ exists patient_id doctor_id hospital_id start duration_minutes
                  reason appointment_id probability,
                  book_appointment env world patient_id doctor_id hospital_id
                    (InDatetime start) duration_minutes reason
                  = (out.1, Booked appointment_id probability)
        else (Response.status out.2 = 400 \/ Response.status out.2 = 500)
             /\ db out.1 = db world)).
  { cbn zeta.
    destruct (get d "preferred_date") as [v|]; [destruct (truthy v)|];
      [destruct (strptime_ymd_json v)|..];
      first [ by apply (Hcall InOther) | by apply (Hcall InNone)
            | refused_answer ]. }
  assert (Hstart : forall start,
    let out :=
      (let '(world', result) :=
         book_appointment env world patient_id doctor_id hospital_id
           (InDatetime start) duration_minutes reason in
       match result with
       | Failed message => (world', json_response false None message 400)
       | Booked _ _ => (world', json_response true None "Appointment booked" 201)
       end) in
    Response.data out.2 = ∅
    /\ (if Response.success out.2
        then Response.status out.2 = 201
             /\ Response.message out.2 = "Appointment booked"
             /\ exists patient_id doctor_id hospital_id start duration_minutes
                  reason appointment_id probability,
                  book_appointment env world patient_id doctor_id hospital_id
                    (InDatetime start) duration_minutes reason
                  = (out.1, Booked appointment_id probability)
        else (Response.status out.2 = 400 \/ Response.status out.2 = 500)
             /\ db out.1 = db world)).
  { intros start. cbn zeta.
    pose proof (book_frame env world patient_id doctor_id hospital_id
                  (InDatetime start) duration_minutes reason) as [_ Hframe].
    destruct (book_appointment env world patient_id doctor_id hospital_id
                (InDatetime start) duration_minutes reason)
      as [world' [appointment_id probability|message]] eqn:Hb; cbn in *.
    - split; [done|]. split; [done|]. split; [done|].
      by exists patient_id, doctor_id, hospital_id, start, duration_minutes,
        reason, appointment_id, probability.
    - split; [done|]. split; [by left|done]. }
  destruct (get d "appointment_datetime") as [v|]; [|exact Hpref].
  destruct (truthy v); [|exact Hpref].
  destruct (fromisoformat_json v) as [start|]; [apply Hstart|].
  refused_answer.
Qed.

End Routes.

Lemma book_route_needs_start_witness :
  let get_json := Returns (Object preferred_date_payload) in
  let world := mkWorld clinic None in
  let answered :=
    book_patient_appointment (H := example_runtime) (H0 := example_strptime)
      (H1 := example_coercions) (env_at (Time.combine monday 0)) world get_json in
  (forall d v, get_json = Returns (Object d) ->
     get d "appointment_datetime" = Some v -> truthy v = false)
  /\ answered.1 = world
  /\ Response.success answered.2 = false
  /\ (Response.status answered.2 = 400 \/ Response.status answered.2 = 500).
Proof.
  cbn zeta.
  assert (Hno : forall d v,
            Returns (Object preferred_date_payload) = Returns (Object d) ->
            get d "appointment_datetime" = Some v -> truthy v = false).
  { intros d v [= <-] Hv. vm_compute in Hv. discriminate. }
  split; [exact Hno|].
  exact (book_route_needs_start (H := example_runtime) (H0 := example_strptime)
           (H1 := example_coercions) (env_at (Time.combine monday 0))
           (mkWorld clinic None) _ Hno).
Defined.

Lemma book_route_preferred_date_witness :
  let d := preferred_date_payload in
  let world := mkWorld clinic None in
  let env := env_at (Time.combine monday 0) in
  (validate_required_fields (Some d) ["patient_id"; "doctor_id"; "hospital_id"]
   = Valid
   /\ py_int (Coercions := example_coercions) (default JNull (d !! "patient_id"))
      = Returns 11
   /\ py_int (Coercions := example_coercions) (default JNull (d !! "doctor_id"))
      = Returns 1
   /\ py_int (Coercions := example_coercions) (default JNull (d !! "hospital_id"))
      = Returns 1
   /\ get d "appointment_datetime" = None
   /\ d !! "preferred_date" = Some (JStr "2026-03-17")
   /\ "2026-03-17" <> ""
   /\ strptime_ymd (Strptime := example_strptime) "2026-03-17" = Returns 739692)
  /\ book_patient_appointment (H := example_runtime) (H0 := example_strptime)
       (H1 := example_coercions) env world (Returns (Object d))
     = (world, Response.mk false ∅ "Unsupported datetime input type" 400).
Proof.
  cbn zeta. split; [by repeat split|].
  exact (book_route_preferred_date (H := example_runtime) (H0 := example_strptime)
           (H1 := example_coercions) (env_at (Time.combine monday 0))
           (mkWorld clinic None) preferred_date_payload "2026-03-17" 739692 11 1 1
           eq_refl eq_refl eq_refl eq_refl eq_refl eq_refl
           ltac:(discriminate) eq_refl).
Defined.

Lemma validate_required_fields_valid_example :
  validate_required_fields (Some preferred_date_payload)
    ["patient_id"; "doctor_id"; "hospital_id"] = Valid
  /\ validate_required_fields (Some (delete "doctor_id" preferred_date_payload))
       ["patient_id"; "doctor_id"; "hospital_id"]
     = Invalid "Missing required fields: doctor_id"
  /\ validate_required_fields (Some ∅) ["patient_id"; "doctor_id"; "hospital_id"]
     = Invalid "Missing required fields: patient_id, doctor_id, hospital_id".
Proof. split_and!; vm_compute; reflexivity. Qed.

(** X23: the cancel route has no guard.  For an appointment that exists
    it answers 200 "Appointment cancelled" whatever the status was, a
    COMPLETED or an already CANCELLED one included, and a second call
    succeeds again; the row ends CANCELLED, its columns other than
    [status] and [updated_at] as they were. *)
Theorem cancel_route_unguarded (t1 t2 : Time.datetime) (session : Session)
    (appointment_id : Z) (i : nat) (appt : Appointment.t) :
  found session appointment_id i appt ->
  let first_call := cancel_appointment_route t1 session appointment_id in
  let second_call := cancel_appointment_route t2 first_call.1 appointment_id in
  first_call.2 = Response.mk true ∅ "Appointment cancelled" 200
  /\ second_call.2 = Response.mk true ∅ "Appointment cancelled" 200
  /\ exists appt', appointments second_call.1 !! i = Some appt'
       /\ Appointment.status appt' = CANCELLED
       /\ same_but_status appt appt'.
Proof.
  intros Hf. cbn zeta.
  assert (E1 : cancel_appointment_route t1 session appointment_id
               = (with_appointments session
                    (<[i := Appointment.set_updated_at
                              (Appointment.set_status appt CANCELLED) t1]>
                       (appointments session)),
                  Response.mk true ∅ "Appointment cancelled" 200)).
  { unfold cancel_appointment_route. unfold found in Hf. by rewrite Hf. }
  rewrite E1. cbn [fst snd]. split; [done|].
  pose proof (found_after_cancel t1 session appointment_id i appt Hf) as Hf'.
  unfold cancel_appointment_route. unfold found in Hf'. rewrite Hf'.
  cbn [fst snd appointments with_appointments]. split; [done|].
  rewrite list_insert_insert_eq.
  apply list_find_Some in Hf as (Hi & _).
  eexists. split; [apply list_lookup_insert_eq; by eapply lookup_lt_Some|].
  by destruct appt.
Qed.

Lemma cancel_route_unguarded_witness :
  let t1 := Time.combine monday (Time.hm 12 0) in
  let t2 := Time.combine monday (Time.hm 13 0) in
  let first_call := cancel_appointment_route t1 (clinic_with COMPLETED) 7 in
  let second_call := cancel_appointment_route t2 first_call.1 7 in
  found (clinic_with COMPLETED) 7 0 (appointment_7 COMPLETED)
  /\ first_call.2 = Response.mk true ∅ "Appointment cancelled" 200
  /\ second_call.2 = Response.mk true ∅ "Appointment cancelled" 200
  /\ exists appt', appointments second_call.1 !! 0%nat = Some appt'
       /\ Appointment.status appt' = CANCELLED
       /\ same_but_status (appointment_7 COMPLETED) appt'.
Proof.
  cbn zeta.
  assert (Hf : found (clinic_with COMPLETED) 7 0 (appointment_7 COMPLETED))
    by (vm_compute; reflexivity).
  split; [exact Hf|].
  exact (cancel_route_unguarded (Time.combine monday (Time.hm 12 0))
           (Time.combine monday (Time.hm 13 0)) (clinic_with COMPLETED) 7 0
           (appointment_7 COMPLETED) Hf).
Defined.

(** ** One call after the other *)

(** X24: booked once, a doctor and start cannot be booked again.  After
    a successful booking, a second request for the same doctor and the
    same start that passes the validations is answered "Slot already
    booked" and writes nothing, whatever its patient, hospital, duration
    and reason. *)
Theorem repeat_booking_refused `{Runtime} env env' world
    patient_id doctor_id hospital_id appointment_datetime duration_minutes reason
    patient_id' hospital_id' duration_minutes' reason'
    appointment_id probability dt patient doctor hospital :
  let first_call :=
    book_appointment env world patient_id doctor_id hospital_id
      appointment_datetime duration_minutes reason in
  let second_call :=
    book_appointment env' first_call.1 patient_id' doctor_id hospital_id'
      appointment_datetime duration_minutes' reason' in
  first_call.2 = Booked appointment_id probability ->
  _normalize_datetime_input appointment_datetime = Returns dt ->
  bookable_instant env' dt ->
  resolved (db world) patient_id' doctor_id hospital_id' patient doctor hospital ->
  second_call.2 = Failed "Slot already booked"
  /\ db second_call.1 = db first_call.1.
Proof. apply book_appointment_twice. Qed.

Lemma repeat_booking_refused_witness :
  let env := env_at (Time.combine monday 0) in
  let env' := env_at (Time.combine monday (Time.hm 1 0)) in
  let input := naive monday (Time.hm 11 0) in
  let dt := Time.combine monday (Time.hm 11 0) in
  let first_call :=
    book_appointment (H := example_runtime) env (mkWorld clinic None) 11 1 1
      input 30 None in
  let second_call :=
    book_appointment (H := example_runtime) env' first_call.1 11 1 1 input 45
      (Some "follow-up") in
  (first_call.2 = Booked 1 0x1.999999999999ap-4%float
   /\ _normalize_datetime_input (H := example_runtime) input = Returns dt
   /\ bookable_instant env' dt
   /\ resolved (db (mkWorld clinic None)) 11 1 1 (Patient.mk 11 None)
        (Doctor.mk 1 (Some 1) (Some 30)) (Hospital.mk 1))
  /\ second_call.2 = Failed "Slot already booked"
  /\ db second_call.1 = db first_call.1.
Proof.
  cbn zeta.
  assert (Hb : (book_appointment (H := example_runtime)
                  (env_at (Time.combine monday 0)) (mkWorld clinic None) 11 1 1
                  (naive monday (Time.hm 11 0)) 30 None).2
               = Booked 1 0x1.999999999999ap-4%float)
    by (vm_compute; reflexivity).
  assert (Hdt : _normalize_datetime_input (H := example_runtime)
                  (naive monday (Time.hm 11 0))
                = Returns (Time.combine monday (Time.hm 11 0)))
    by (vm_compute; reflexivity).
  assert (Hin : bookable_instant (env_at (Time.combine monday (Time.hm 1 0)))
                  (Time.combine monday (Time.hm 11 0)))
    by (vm_compute; split; [reflexivity | discriminate]).
  assert (Hres : resolved clinic 11 1 1 (Patient.mk 11 None)
                   (Doctor.mk 1 (Some 1) (Some 30)) (Hospital.mk 1))
    by (vm_compute; repeat split; reflexivity).
  split; [by repeat split|].
  exact (repeat_booking_refused (H := example_runtime)
           (env_at (Time.combine monday 0))
           (env_at (Time.combine monday (Time.hm 1 0))) (mkWorld clinic None)
           11 1 1 (naive monday (Time.hm 11 0)) 30 None 11 1 45 (Some "follow-up")
           1 0x1.999999999999ap-4%float (Time.combine monday (Time.hm 11 0))
           (Patient.mk 11 None) (Doctor.mk 1 (Some 1) (Some 30)) (Hospital.mk 1)
           Hb Hdt Hin Hres).
Defined.

(** X25: of two cancellations of an appointment that is neither
    CANCELLED nor COMPLETED, the first succeeds and the second is
    refused with "Cannot cancel this appointment" and changes nothing. *)
Theorem cancel_succeeds_once now now' session appointment_id i appt :
  found session appointment_id i appt ->
  Appointment.status appt <> CANCELLED ->
  Appointment.status appt <> COMPLETED ->
  let first_call := cancel_appointment now session appointment_id in
  let second_call := cancel_appointment now' first_call.1 appointment_id in
  CancelResult.success first_call.2 = true
  /\ second_call = (first_call.1, CancelResult.mk false "Cannot cancel this appointment").
Proof. apply cancel_twice. Qed.

Lemma cancel_succeeds_once_witness :
  let now := Time.combine monday (Time.hm 8 0) in
  let now' := Time.combine monday (Time.hm 9 0) in
  let first_call := cancel_appointment now (clinic_with CONFIRMED) 7 in
  let second_call := cancel_appointment now' first_call.1 7 in
  (found (clinic_with CONFIRMED) 7 0 (appointment_7 CONFIRMED)
   /\ Appointment.status (appointment_7 CONFIRMED) <> CANCELLED
   /\ Appointment.status (appointment_7 CONFIRMED) <> COMPLETED)
  /\ CancelResult.success first_call.2 = true
  /\ second_call = (first_call.1, CancelResult.mk false "Cannot cancel this appointment").
Proof.
  cbn zeta.
  assert (Hf : found (clinic_with CONFIRMED) 7 0 (appointment_7 CONFIRMED))
    by (vm_compute; reflexivity).
  split; [by repeat split|].
  exact (cancel_succeeds_once (Time.combine monday (Time.hm 8 0))
           (Time.combine monday (Time.hm 9 0)) (clinic_with CONFIRMED) 7 0
           (appointment_7 CONFIRMED) Hf ltac:(discriminate) ltac:(discriminate)).
Defined.
